(** * Feature extraction of the phishing detection system

    A shallow embedding of [ml_models/feature_extractor.py]
    (class [FeatureExtractor]) and the properties of its feature set.

    Conventions of the embedding.
    - A Python [str] is a list of Unicode code points ([pystr]); the code
      reads characters above 255 as well, so [ascii] would be too small.
    - A Python [float] is a real number: rounding is not modelled, every
      other step of the arithmetic is the code's; [float] of an integer
      beyond the range of the floats raises, as in Python.
    - A [dict] with string keys is a [gmap string _]; the records
      [EmailData] and [Attachment] hold the keys the code reads with
      [.get], a missing key being [None].
    - What the code takes from other libraries (Unicode tables, NLTK,
      textstat, tldextract, the tokenizer of scikit-learn) is the class
      [PyEnv]; every general theorem holds for every instance of it. *)

From Stdlib Require Import ZArith NArith List String Ascii Reals Lra Lia Permutation.
From stdpp Require Import base gmap strings.
Import ListNotations.

#[local] Open Scope Z_scope.
#[local] Open Scope string_scope.
#[local] Open Scope list_scope.

(** ** Python strings *)

Abbreviation pystr := (list N).

(** [str "abc"] is the Python string of an ASCII literal. *)
Definition str (s : string) : pystr :=
  List.map N_of_ascii (list_ascii_of_string s).

Definition pystr_eqb (a b : pystr) : bool := bool_decide (a = b).

(** [s.startswith(p)] *)
Fixpoint startswith (p s : pystr) : bool :=
  match p, s with
  | [], _ => true
  | _ :: _, [] => false
  | a :: p', b :: s' => N.eqb a b && startswith p' s'
  end.

(** [p in s] for strings: [p] occurs as a substring of [s]. *)
Fixpoint contains (p s : pystr) : bool :=
  startswith p s ||
  match s with
  | [] => false
  | _ :: s' => contains p s'
  end.

(** [s.count(p)] for a non-empty [p]: occurrences of [p] in [s] scanned from
    the left without overlap; [skip] is the number of characters still
    covered by the last occurrence. *)
Fixpoint count_from (skip : nat) (p s : pystr) : nat :=
  match s with
  | [] => 0%nat
  | _ :: s' =>
      match skip with
      | S k => count_from k p s'
      | O => if startswith p s
             then S (count_from (Nat.pred (length p)) p s')
             else count_from 0 p s'
      end
  end.

(** [s.count(p)]; for the empty [p] Python answers [len(s) + 1]. *)
Definition str_count (s p : pystr) : nat :=
  match p with
  | [] => S (length s)
  | _ => count_from 0 p s
  end.

(** [chr(i)] *)
Definition chr (i : N) : pystr := [i].

(** [range(n)] *)
Definition range (n : nat) : list N := List.map N.of_nat (seq 0 n).

(** ** Python numbers as reals *)

#[local] Open Scope R_scope.

(** [np.log2] *)
Definition log2 (x : R) : R := ln x / ln 2.

Definition R_truthy (x : R) : bool := if Req_dec_T x 0 then false else true.

(** [a and b or c] on numbers. *)
Definition and_or (a b c : R) : R :=
  let ab := if R_truthy a then b else a in
  if R_truthy ab then ab else c.

(** ** [_calculate_entropy] *)

(** One turn of [for i in range(256)]. *)
Definition entropy_step (s : pystr) (entropy : R) (i : N) : R :=
  let char := chr i in
  let freq := str_count s char in
  if (0 <? freq)%nat then
    let freq := INR freq / INR (length s) in
    entropy - freq * and_or freq (log2 freq) 0
  else entropy.

Definition _calculate_entropy (s : pystr) : R :=
  match s with
  | [] => 0
  | _ => fold_left (entropy_step s) (range 256) 0
  end.

(** The Shannon entropy of the character distribution of [s]:
    [- sum p(c) * log2 (p(c))] over the characters [c] present in [s], where
    [p(c)] is the number of occurrences of [c] divided by the length. *)
Definition prob (s : pystr) (c : N) : R :=
  INR (count_occ N.eq_dec s c) / INR (length s).

Definition Rsum (l : list R) : R := fold_right Rplus 0 l.

Definition shannon_entropy (s : pystr) : R :=
  - Rsum (List.map (fun c => prob s c * log2 (prob s c)) (nodup N.eq_dec s)).

(** ** Python values, exceptions and dictionaries *)

#[warnings="-register-all"]
Inductive pyval :=
| VInt (z : Z)
| VFloat (r : R)
| VBool (b : bool)
| VList (l : list pyval).

Inductive exn :=
  ZeroDivisionError | ValueError | TypeError | IndexError | OverflowError.

Inductive result (A : Type) :=
| Ok (a : A)
| Raise (e : exn).
Arguments Ok {A} a.
Arguments Raise {A} e.

#[global] Instance result_ret : MRet result := fun A a => Ok a.
#[global] Instance result_bind : MBind result := fun A B f m =>
  match m with
  | Ok a => f a
  | Raise e => Raise e
  end.

(** The feature dictionaries of the extractor. *)
Abbreviation dict := (gmap string pyval).

(** Truth value of a Python object. *)
Definition truthy (v : pyval) : bool :=
  match v with
  | VInt z => negb (z =? 0)%Z
  | VFloat r => R_truthy r
  | VBool b => b
  | VList l => match l with [] => false | _ => true end
  end.

(** The integers that [float] converts: an integer that rounds to a
    magnitude of 2^1024 or more is refused with OverflowError; the
    largest float is 2^1024 - 2^971 and halfway to 2^1024 rounds up. *)
Definition float_int_bound : Z := (2 ^ 1024 - 2 ^ 970)%Z.

Definition in_float_range (z : Z) : bool := (Z.abs z <? float_int_bound)%Z.

(** [float(v)] *)
Definition py_float (v : pyval) : result R :=
  match v with
  | VInt z => if in_float_range z then Ok (IZR z) else Raise OverflowError
  | VFloat r => Ok r
  | VBool b => Ok (if b then 1 else 0)
  | VList _ => Raise TypeError
  end.

(** [a / b] on integers. *)
Definition truediv (a b : Z) : result pyval :=
  if (b =? 0)%Z then Raise ZeroDivisionError else Ok (VFloat (IZR a / IZR b)).

Definition len {A} (l : list A) : Z := Z.of_nat (length l).

(** [sum(1 for c in l if f c)] *)
Definition count_if {A} (f : A -> bool) (l : list A) : Z :=
  len (List.filter f l).

(** ** What the code takes from other libraries *)

Class PyEnv := {
  (** [str.lower] *)
  str_lower : pystr -> pystr;
  str_lower_empty : str_lower [] = [];
  (** [str.isupper] on one character *)
  chr_isupper : N -> bool;
  (** the class [\d] of [re] *)
  chr_isdigit : N -> bool;
  (** [nltk.word_tokenize], [nltk.sent_tokenize] *)
  word_tokenize : pystr -> list pystr;
  sent_tokenize : pystr -> list pystr;
  (** [textstat.flesch_reading_ease] *)
  flesch_reading_ease : pystr -> R;
  (** [tldextract.extract(url).suffix] *)
  tld_suffix : pystr -> pystr;
  (** the token stream of [TfidfVectorizer(stop_words='english')]: the
      document in lower case, cut into tokens of two or more word
      characters, English stop words removed *)
  sk_tokens : pystr -> list pystr;
  (** [numpy.argsort]: the indices that sort the keys; the order among
      equal keys is the library's and is not fixed here *)
  np_argsort : list Z -> list nat
}.

(** ** The input record *)

Record Attachment := {
  att_name : option pystr;
  att_size : option Z
}.

(** [email_data]: the keys read by the extractor; [None] is a missing key. *)
Record EmailData := {
  ed_body : option pystr;
  ed_urls : option (list pystr);
  ed_headers : option (gmap pystr pystr);
  ed_attachments : option (list Attachment);
  ed_has_html : option bool;
  ed_has_forms : option bool;
  ed_has_scripts : option bool;
  ed_has_iframes : option bool
}.

(** ** The term model of scikit-learn's [TfidfVectorizer] *)

Module Sklearn.

(** Fitted state of a vectorizer: [vocabulary_] in column order, held
    by the vectorizer itself, and [idf_], held by its transformer; [None]
    is an attribute that is not set. *)
Record TfidfVectorizer := {
  max_features : nat;
  vocabulary_ : option (list pystr);
  idf_ : option (list R)
}.

Definition pystr_eq_dec (a b : pystr) : {a = b} + {a <> b} :=
  decide (a = b).

(** Order of Python strings: lexicographic on code points. *)
Fixpoint pystr_leb (a b : pystr) : bool :=
  match a, b with
  | [], _ => true
  | _ :: _, [] => false
  | x :: a', y :: b' => (x <? y)%N || ((x =? y)%N && pystr_leb a' b')
  end.

Section Sort.
Context {A : Type} (leb : A -> A -> bool).

Fixpoint insert_sorted (x : A) (l : list A) : list A :=
  match l with
  | [] => [x]
  | y :: l' => if leb x y then x :: l else y :: insert_sorted x l'
  end.

(** Stable insertion sort. *)
Definition sort_by (l : list A) : list A :=
  fold_right insert_sorted [] l.

End Sort.

(** [' '.join(tokens)] *)
Fixpoint space_join (tokens : list pystr) : pystr :=
  match tokens with
  | [] => []
  | [t] => t
  | t :: rest => t ++ 32%N :: space_join rest
  end.

(** The [n]-grams of a token list, left to right. *)
Definition ngrams (n : nat) (tokens : list pystr) : list pystr :=
  List.map (fun i => space_join (firstn n (skipn i tokens)))
           (seq 0 (length tokens + 1 - n)).

(** [_word_ngrams] for [ngram_range=(1, 3)]: the tokens, then the
    bigrams, then the trigrams. *)
Definition word_ngrams (tokens : list pystr) : list pystr :=
  tokens ++ ngrams 2 tokens ++ ngrams 3 tokens.

Definition tf (t : pystr) (doc : list pystr) : nat :=
  count_occ pystr_eq_dec doc t.

(** [_limit_features]: a vocabulary of more than [k] terms is cut to
    the terms at the first [k] indices of [np.argsort(-tfs)], [tfs] being
    the total counts; the terms kept stay in the order of the vocabulary. *)
Definition limit_features `{PyEnv} (k : nat) (docs : list (list pystr))
    (vocab : list pystr) : list pystr :=
  if (length vocab <=? k)%nat then vocab else
  let tfs := List.map (fun t => Z.of_nat (tf t (List.concat docs))) vocab in
  let mask_inds := firstn k (np_argsort (List.map Z.opp tfs)) in
  List.map snd
    (List.filter (fun it => existsb (Nat.eqb (fst it)) mask_inds)
       (combine (seq 0 (length vocab)) vocab)).

Definition df (t : pystr) (docs : list (list pystr)) : nat :=
  length (List.filter (fun d => existsb (pystr_eqb t) d) docs).

(** Smoothed inverse document frequency. *)
Definition idf (docs : list (list pystr)) (t : pystr) : R :=
  ln ((1 + INR (length docs)) / (1 + INR (df t docs))) + 1.

(** One row of the matrix: tf * idf, scaled to Euclidean norm 1. *)
Definition tfidf_row (vocab : list pystr) (idfs : list R)
    (doc : list pystr) : list R :=
  let raw := List.map (fun ti => INR (tf (fst ti) doc) * snd ti)
                      (combine vocab idfs) in
  let norm := sqrt (Rsum (List.map (fun x => x * x) raw)) in
  if Req_dec_T norm 0 then raw else List.map (fun x => x / norm) raw.

(** [fit_transform(raw_documents)]: installs a new, unfitted
    transformer, learns the vocabulary from the given documents, fits the
    transformer and returns the matrix of the documents.  An empty
    vocabulary is a [ValueError], raised before [vocabulary_] is
    assigned: the earlier vocabulary stays, the earlier [idf_] is gone
    with the transformer that held it. *)
Definition fit_transform `{PyEnv} (v : TfidfVectorizer)
    (raw_documents : list pystr)
    : result (list (list R)) * TfidfVectorizer :=
  let docs := List.map (fun d => word_ngrams (sk_tokens d)) raw_documents in
  let vocab := sort_by pystr_leb (nodup pystr_eq_dec (List.concat docs)) in
  match vocab with
  | [] =>
      (Raise ValueError,
       {| max_features := max_features v;
          vocabulary_ := vocabulary_ v;
          idf_ := None |})
  | _ =>
      let vocab := limit_features (max_features v) docs vocab in
      let idfs := List.map (idf docs) vocab in
      (Ok (List.map (tfidf_row vocab idfs) docs),
       {| max_features := max_features v;
          vocabulary_ := Some vocab;
          idf_ := Some idfs |})
  end.

End Sklearn.

(** ** The extractor object *)

Record FeatureExtractor := {
  tfidf_vectorizer : Sklearn.TfidfVectorizer;
  urgency_words : list pystr;
  financial_words : list pystr;
  personal_info_words : list pystr;
  suspicious_tlds : list pystr
}.

(** [FeatureExtractor()] *)
Definition __init__ : FeatureExtractor := {|
  tfidf_vectorizer :=
    {| Sklearn.max_features := 1000;
       Sklearn.vocabulary_ := None;
       Sklearn.idf_ := None |};
  urgency_words := List.map str
    ["urgent"; "immediately"; "alert"; "critical"; "important";
     "suspended"; "limited"; "expire"; "verify"; "confirm";
     "account"; "security"; "update"; "restore"; "action required"];
  financial_words := List.map str
    ["bank"; "paypal"; "credit card"; "visa"; "mastercard";
     "western union"; "money gram"; "transfer"; "wire";
     "refund"; "invoice"; "payment"; "transaction"];
  personal_info_words := List.map str
    ["password"; "ssn"; "social security"; "date of birth";
     "mother's maiden name"; "credit score"; "pin";
     "username"; "login"; "sign in"; "verify your identity"];
  suspicious_tlds := List.map str
    [".xyz"; ".top"; ".work"; ".date"; ".men"; ".loan";
     ".download"; ".review"; ".stream"; ".gdn"; ".racing";
     ".win"; ".bid"; ".trade"; ".webcam"; ".science"]
|}.

(** Methods that may replace the vectorizer: the state is [self]. *)
Definition M (A : Type) : Type :=
  FeatureExtractor -> result A * FeatureExtractor.

Definition M_ret {A} (a : A) : M A := fun self => (Ok a, self).

Definition M_bind {A B} (m : M A) (k : A -> M B) : M B := fun self =>
  match m self with
  | (Ok a, self') => k a self'
  | (Raise e, self') => (Raise e, self')
  end.

(** A method that only reads [self]. *)
Definition M_pure {A} (f : FeatureExtractor -> result A) : M A :=
  fun self => (f self, self).

Notation "x <-- m ;; k" := (M_bind m (fun x => k))
  (at level 100, m at next level, k at level 200, right associativity).

Section Extractor.
Context `{PyEnv}.

(** *** [_extract_text_features] *)

Definition punctuation : pystr := str ".,!?;:".

(** [a / b if b > 0 else 0] *)
Definition guarded_ratio (a b : Z) : result pyval :=
  if (b >? 0)%Z then truediv a b else Ok (VInt 0).

Definition _extract_text_features (text : pystr) : result dict :=
  match text with
  | [] =>
      Ok (list_to_map
            [("word_count", VInt 0); ("char_count", VInt 0);
             ("sentence_count", VInt 0); ("avg_word_length", VInt 0);
             ("unique_word_ratio", VInt 0); ("uppercase_ratio", VInt 0);
             ("punctuation_count", VInt 0); ("readability_score", VInt 0)])
  | _ =>
      let words := word_tokenize (str_lower text) in
      let sentences := sent_tokenize text in
      let unique_words : gset pystr := list_to_set words in
      let word_count := len words in
      let char_count := len text in
      avg_word_length ← guarded_ratio char_count word_count;
      unique_word_ratio ←
        guarded_ratio (Z.of_nat (size unique_words)) word_count;
      uppercase_ratio ←
        guarded_ratio (count_if chr_isupper text) char_count;
      Ok (list_to_map
            [("word_count", VInt word_count);
             ("char_count", VInt char_count);
             ("sentence_count", VInt (len sentences));
             ("avg_word_length", avg_word_length);
             ("unique_word_ratio", unique_word_ratio);
             ("uppercase_ratio", uppercase_ratio);
             ("punctuation_count",
              VInt (count_if (fun c => existsb (N.eqb c) punctuation) text));
             ("readability_score", VFloat (flesch_reading_ease text))])
  end.

(** *** [_extract_url_features] *)

Definition url_shorteners : list pystr := List.map str
  ["bit.ly"; "tinyurl"; "goo.gl"; "ow.ly"; "is.gd";
   "buff.ly"; "adf.ly"; "short.link"; "tiny.cc"].

(** A literal of a pattern: the rest of [s] after the prefix [p]. *)
Definition lit (p : string) (s : pystr) : option pystr :=
  if startswith (str p) s then Some (skipn (String.length p) s) else None.

Fixpoint skip_digits (s : pystr) : pystr :=
  match s with
  | c :: s' => if chr_isdigit c then skip_digits s' else s
  | [] => []
  end.

(** [\d+]: the longest run of digits, at least one.  What follows in the
    pattern is a dot or the end, so no shorter run can match. *)
Definition digits (s : pystr) : option pystr :=
  match s with
  | c :: s' => if chr_isdigit c then Some (skip_digits s') else None
  | [] => None
  end.

(** [s?] before [://]. *)
Definition opt_s (s : pystr) : option pystr :=
  match s with
  | 115%N :: s' => Some s'
  | _ => Some s
  end.

(** The pieces of a pattern one after the other, from the start. *)
Definition match_seq (pieces : list (pystr -> option pystr)) (s : pystr)
    : option pystr :=
  fold_left (fun rest piece => match rest with
                               | Some r => piece r
                               | None => None
                               end) pieces (Some s).

(** [re.match(r'https?://\d+\.\d+\.\d+\.\d+', url)] *)
Definition is_ip_url (url : pystr) : bool :=
  match match_seq [lit "http"; opt_s; lit "://";
                   digits; lit "."; digits; lit "."; digits; lit "."; digits]
                  url with
  | Some _ => true
  | None => false
  end.

Definition is_shortened (url : pystr) : bool :=
  existsb (fun shortener => contains shortener url) url_shorteners.

Definition has_suspicious_tld (self : FeatureExtractor) (url : pystr) : bool :=
  let suffix := tld_suffix url in
  match suffix with
  | [] => false
  | _ => existsb (fun tld => contains tld suffix) (suspicious_tlds self)
  end.

Definition is_high_entropy (url : pystr) : bool :=
  if Rgt_dec (_calculate_entropy url) 4.5 then true else false.

(** The entries of [features] that the loop over the URLs updates. *)
Record url_features := {
  suspicious_url_count : Z;
  ip_url_count : Z;
  shortened_url_count : Z;
  suspicious_tld_count : Z;
  url_entropy : list R;
  has_https : list bool
}.

(** The body of [for url in urls]. *)
Definition url_step (self : FeatureExtractor)
    (features : url_features) (url : pystr) : url_features :=
  let features :=
    if is_ip_url url then
      {| suspicious_url_count := suspicious_url_count features + 1;
         ip_url_count := ip_url_count features + 1;
         shortened_url_count := shortened_url_count features;
         suspicious_tld_count := suspicious_tld_count features;
         url_entropy := url_entropy features;
         has_https := has_https features |}
    else features in
  let features :=
    if is_shortened url then
      {| suspicious_url_count := suspicious_url_count features + 1;
         ip_url_count := ip_url_count features;
         shortened_url_count := shortened_url_count features + 1;
         suspicious_tld_count := suspicious_tld_count features;
         url_entropy := url_entropy features;
         has_https := has_https features |}
    else features in
  let features :=
    if has_suspicious_tld self url then
      {| suspicious_url_count := suspicious_url_count features + 1;
         ip_url_count := ip_url_count features;
         shortened_url_count := shortened_url_count features;
         suspicious_tld_count := suspicious_tld_count features + 1;
         url_entropy := url_entropy features;
         has_https := has_https features |}
    else features in
  {| suspicious_url_count :=
       if is_high_entropy url then suspicious_url_count features + 1
       else suspicious_url_count features;
     ip_url_count := ip_url_count features;
     shortened_url_count := shortened_url_count features;
     suspicious_tld_count := suspicious_tld_count features;
     url_entropy := url_entropy features ++ [_calculate_entropy url];
     has_https := has_https features ++ [startswith (str "https") url] |}.

Definition url_loop (self : FeatureExtractor) (urls : list pystr)
    : url_features :=
  fold_left (url_step self) urls
    {| suspicious_url_count := 0; ip_url_count := 0;
       shortened_url_count := 0; suspicious_tld_count := 0;
       url_entropy := []; has_https := [] |}.

(** [np.mean] *)
Definition mean (l : list R) : R := Rsum l / INR (length l).

Definition _extract_url_features (self : FeatureExtractor)
    (urls : list pystr) : result dict :=
  let features := url_loop self urls in
  let avg_url_entropy :=
    match url_entropy features with
    | [] => VInt 0
    | _ => VFloat (mean (url_entropy features))
    end in
  https_ratio ←
    match has_https features with
    | [] => Ok (VInt 0)
    | _ => truediv (count_if (fun b : bool => b) (has_https features))
                   (len (has_https features))
    end;
  Ok (delete "has_https" (delete "url_entropy"
       (<["https_ratio" := https_ratio]>
        (<["avg_url_entropy" := avg_url_entropy]>
         (list_to_map
            [("url_count", VInt (len urls));
             ("suspicious_url_count", VInt (suspicious_url_count features));
             ("ip_url_count", VInt (ip_url_count features));
             ("shortened_url_count", VInt (shortened_url_count features));
             ("suspicious_tld_count", VInt (suspicious_tld_count features));
             ("url_entropy", VList (List.map VFloat (url_entropy features)));
             ("has_https", VList (List.map VBool (has_https features)))]
          : dict))))).

(** *** [_extract_metadata_features] *)

Definition _extract_metadata_features (email_data : EmailData) : dict :=
  let features : dict :=
    list_to_map
      [("has_reply_to", VBool false); ("reply_to_mismatch", VBool false);
       ("has_spf_fail", VBool false); ("has_dkim_fail", VBool false);
       ("has_dmarc_fail", VBool false); ("has_html", VBool false);
       ("has_forms", VBool false); ("has_scripts", VBool false);
       ("has_iframes", VBool false)] in
  let headers : gmap pystr pystr := default ∅ (ed_headers email_data) in
  let features :=
    match headers !! str "Reply-To" with
    | Some (_ :: _) =>
        let features := <["has_reply_to" := VBool true]> features in
        if bool_decide (headers !! str "Reply-To" ≠ headers !! str "From")
        then <["has_reply_to" := VBool true]>
               (<["reply_to_mismatch" := VBool true]> features)
        else features
    | _ => features
    end in
  let auth_results := default [] (headers !! str "Authentication-Results") in
  let features :=
    <["has_spf_fail" :=
        VBool (contains (str "spf=fail") (str_lower auth_results))]> features in
  let features :=
    <["has_dkim_fail" :=
        VBool (contains (str "dkim=fail") (str_lower auth_results))]> features in
  let features :=
    <["has_html" := VBool (default false (ed_has_html email_data))]> features in
  let features :=
    <["has_forms" := VBool (default false (ed_has_forms email_data))]> features in
  let features :=
    <["has_scripts" := VBool (default false (ed_has_scripts email_data))]> features in
  <["has_iframes" := VBool (default false (ed_has_iframes email_data))]> features.

(** *** [_extract_attachment_features] *)

Definition suspicious_extensions : list pystr := List.map str
  [".exe"; ".scr"; ".bat"; ".cmd"; ".vbs"; ".ps1";
   ".js"; ".jar"; ".docm"; ".xlsm"; ".pptm"].

Definition executable_extensions : list pystr := List.map str
  [".exe"; ".scr"; ".bat"; ".cmd"; ".vbs"; ".ps1"].

Definition encrypted_markers : list pystr := List.map str
  [".enc"; ".encrypted"; ".pgp"; ".gpg"].

Definition dot : N := 46%N.

(** [name.split('.')[-1]], with [seg] the segment read so far. *)
Fixpoint last_segment (seg name : pystr) : pystr :=
  match name with
  | [] => seg
  | c :: name' =>
      if (c =? dot)%N then last_segment [] name'
      else last_segment (seg ++ [c]) name'
  end.

Definition extension (name : pystr) : pystr :=
  if contains [dot] name then dot :: str_lower (last_segment [] name) else [].

Definition str_in (x : pystr) (l : list pystr) : bool :=
  existsb (pystr_eqb x) l.

Record attachment_features := {
  suspicious_attachment_count : Z;
  executable_attachment_count : Z;
  max_attachment_size : Z;
  has_encrypted_attachment : bool
}.

(** The body of [for attachment in attachments]. *)
Definition attachment_step (features : attachment_features)
    (attachment : Attachment) : attachment_features :=
  let name := default [] (att_name attachment) in
  let size := default 0%Z (att_size attachment) in
  let ext := extension name in
  {| suspicious_attachment_count :=
       if str_in ext suspicious_extensions
       then suspicious_attachment_count features + 1
       else suspicious_attachment_count features;
     executable_attachment_count :=
       if str_in ext suspicious_extensions && str_in ext executable_extensions
       then executable_attachment_count features + 1
       else executable_attachment_count features;
     max_attachment_size := Z.max (max_attachment_size features) size;
     has_encrypted_attachment :=
       if existsb (fun x => contains x (str_lower name)) encrypted_markers
       then true
       else has_encrypted_attachment features |}.

Definition _extract_attachment_features (attachments : list Attachment)
    : dict :=
  let features :=
    fold_left attachment_step attachments
      {| suspicious_attachment_count := 0;
         executable_attachment_count := 0;
         max_attachment_size := 0;
         has_encrypted_attachment := false |} in
  list_to_map
    [("attachment_count", VInt (len attachments));
     ("suspicious_attachment_count",
      VInt (suspicious_attachment_count features));
     ("executable_attachment_count",
      VInt (executable_attachment_count features));
     ("max_attachment_size", VInt (max_attachment_size features));
     ("has_encrypted_attachment",
      VBool (has_encrypted_attachment features))].

(** *** [_extract_behavioral_features] *)

(** [for word in words: count += text_lower.count(word)] *)
Definition count_words (text_lower : pystr) (words : list pystr) : Z :=
  fold_left
    (fun count word => (count + Z.of_nat (str_count text_lower word))%Z)
    words 0%Z.

Definition _extract_behavioral_features (self : FeatureExtractor)
    (text : pystr) : dict :=
  let text_lower := str_lower text in
  let urgency := count_words text_lower (urgency_words self) in
  let financial := count_words text_lower (financial_words self) in
  let personal := count_words text_lower (personal_info_words self) in
  list_to_map
    [("urgency_words_count", VInt urgency);
     ("financial_words_count", VInt financial);
     ("personal_info_words_count", VInt personal);
     ("has_urgency", VBool (urgency >? 0)%Z);
     ("has_financial", VBool (financial >? 0)%Z);
     ("has_personal_info_request", VBool (personal >? 0)%Z)].

(** *** [_get_tfidf_features] *)

Definition set_vectorizer (self : FeatureExtractor)
    (v : Sklearn.TfidfVectorizer) : FeatureExtractor :=
  {| tfidf_vectorizer := v;
     urgency_words := urgency_words self;
     financial_words := financial_words self;
     personal_info_words := personal_info_words self;
     suspicious_tlds := suspicious_tlds self |}.

Definition _get_tfidf_features (text : pystr) : M (list pyval) :=
  fun self =>
    match text with
    | [] => (Ok (repeat (VInt 0) 1000), self)
    | _ =>
        let (tfidf_matrix, fitted) :=
          Sklearn.fit_transform (tfidf_vectorizer self) [text] in
        (rows ← tfidf_matrix;
         match rows with
         | row :: _ => Ok (List.map VFloat row)
         | [] => Raise IndexError
         end,
         set_vectorizer self fitted)
    end.

(** *** [extract_all_features] *)

(** [features.update(d)] *)
Definition update (features d : dict) : dict := d ∪ features.

Definition extract_all_features (email_data : EmailData) : M dict :=
  let features : dict := ∅ in
  let body := default [] (ed_body email_data) in
  d <-- M_pure (fun _ => _extract_text_features body) ;;
  let features := update features d in
  d <-- M_pure (fun self =>
          _extract_url_features self (default [] (ed_urls email_data))) ;;
  let features := update features d in
  let features := update features (_extract_metadata_features email_data) in
  let features :=
    update features
      (_extract_attachment_features
         (default [] (ed_attachments email_data))) in
  d <-- M_pure (fun self => Ok (_extract_behavioral_features self body)) ;;
  let features := update features d in
  tfidf_vector <-- _get_tfidf_features body ;;
  M_ret (<["tfidf_vector" := VList tfidf_vector]> features).

End Extractor.

(** ** [prepare_ml_input] *)

Definition numerical_features : list string :=
  ["word_count"; "char_count"; "sentence_count"; "avg_word_length";
   "unique_word_ratio"; "uppercase_ratio"; "punctuation_count";
   "url_count"; "suspicious_url_count"; "ip_url_count";
   "shortened_url_count"; "suspicious_tld_count"; "avg_url_entropy";
   "https_ratio"; "urgency_words_count"; "financial_words_count";
   "personal_info_words_count"; "attachment_count";
   "suspicious_attachment_count"; "executable_attachment_count"].

Definition boolean_features : list string :=
  ["has_reply_to"; "reply_to_mismatch"; "has_spf_fail";
   "has_dkim_fail"; "has_html"; "has_forms"; "has_scripts";
   "has_iframes"; "has_urgency"; "has_financial";
   "has_personal_info_request"; "has_encrypted_attachment"].

(** [for feature in numerical_features:
       feature_vector.append(float(features.get(feature, 0)))] *)
Fixpoint append_numerical (features : dict) (names : list string)
    (feature_vector : list R) : result (list R) :=
  match names with
  | [] => Ok feature_vector
  | feature :: names' =>
      x ← py_float (default (VInt 0) (features !! feature));
      append_numerical features names' (feature_vector ++ [x])
  end.

(** [for feature in boolean_features:
       feature_vector.append(1 if features.get(feature, False) else 0)] *)
Fixpoint append_boolean (features : dict) (names : list string)
    (feature_vector : list R) : list R :=
  match names with
  | [] => feature_vector
  | feature :: names' =>
      let bit := if truthy (default (VBool false) (features !! feature))
                 then 1 else 0 in
      append_boolean features names' (feature_vector ++ [bit])
  end.

(** The result is the array of shape (1, n): one row. *)
Definition prepare_ml_input (features : dict) : result (list (list R)) :=
  feature_vector ← append_numerical features numerical_features [];
  Ok [append_boolean features boolean_features feature_vector].

(** ** A small environment for running the extractor

    ASCII stand-ins for the library functions: letters and digits are
    the ASCII ones, words are cut at spaces, the text is one sentence,
    the readability score is 0, no URL has a public suffix, the
    vectorizer's tokens are the runs of two or more ASCII word
    characters of the lower-cased text outside a short stop list, and
    argsort is stable. *)

Module AsciiEnv.

Definition between (lo hi c : N) : bool := ((lo <=? c) && (c <=? hi))%N.

Definition lower_chr (c : N) : N :=
  if between 65 90 c then (c + 32)%N else c.

Definition is_word_chr (c : N) : bool :=
  between 97 122 c || between 65 90 c || between 48 57 c || (c =? 95)%N.

(** Cuts [s] at the characters that are not [keep]; [cur] is the piece
    being read. *)
Fixpoint split_on (keep : N -> bool) (cur s : pystr) : list pystr :=
  match s with
  | [] => match cur with [] => [] | _ => [cur] end
  | c :: s' =>
      if keep c then split_on keep (cur ++ [c]) s'
      else match cur with
           | [] => split_on keep [] s'
           | _ => cur :: split_on keep [] s'
           end
  end.

Definition stop_list : list pystr :=
  List.map str ["the"; "and"; "is"; "of"; "to"; "in"; "it"; "for"].

Definition tokens (doc : pystr) : list pystr :=
  List.filter
    (fun t => (2 <=? length t)%nat && negb (existsb (pystr_eqb t) stop_list))
    (split_on is_word_chr [] (List.map lower_chr doc)).

(** A stable argsort: equal keys keep the order of their indices. *)
Definition argsort (keys : list Z) : list nat :=
  Sklearn.sort_by (fun i j => (nth i keys 0 <=? nth j keys 0)%Z)
                  (seq 0 (length keys)).

#[export] Instance env : PyEnv := {|
  str_lower := List.map lower_chr;
  str_lower_empty := eq_refl;
  chr_isupper := between 65 90;
  chr_isdigit := between 48 57;
  word_tokenize := split_on (fun c => negb (c =? 32)%N) [];
  sent_tokenize := fun text => match text with [] => [] | _ => [text] end;
  flesch_reading_ease := fun _ => 0;
  tld_suffix := fun _ => [];
  sk_tokens := tokens;
  np_argsort := argsort
|}.

End AsciiEnv.

(** ** Vocabulary of the properties *)

(** What one character contributes to the sum of the loop. *)
Definition entropy_term (s : pystr) (i : N) : R :=
  if (0 <? count_occ N.eq_dec s i)%nat
  then prob s i * log2 (prob s i)
  else 0.

(** The characters of [s] that the loop over [range(256)] meets. *)
Definition narrow_chars (s : pystr) : list N :=
  List.filter (fun c => (c <? 256)%N) (nodup N.eq_dec s).

(** A number between 0 and 1. *)
Definition in_unit (v : pyval) : Prop :=
  match v with
  | VInt z => (0 <= z <= 1)%Z
  | VFloat r => 0 <= r <= 1
  | _ => False
  end.

(** The invariant of the loop: the total is the sum of the three counters
    and of the URLs of high entropy met so far. *)
Definition url_inv (features : url_features) (high : Z) : Prop :=
  suspicious_url_count features =
  (ip_url_count features + shortened_url_count features +
   suspicious_tld_count features + high)%Z.

(** [email_data.get('headers', {})] *)
Definition headers_of (email_data : EmailData) : gmap pystr pystr :=
  default ∅ (ed_headers email_data).

(** The record [email_data] with [h] as its header map. *)
Definition with_headers (email_data : EmailData) (h : gmap pystr pystr)
    : EmailData :=
  {| ed_body := ed_body email_data;
     ed_urls := ed_urls email_data;
     ed_headers := Some h;
     ed_attachments := ed_attachments email_data;
     ed_has_html := ed_has_html email_data;
     ed_has_forms := ed_has_forms email_data;
     ed_has_scripts := ed_has_scripts email_data;
     ed_has_iframes := ed_has_iframes email_data |}.

(** The header map with every key [k] rewritten to [f k]. *)
Definition rekey (f : pystr -> pystr) (h : gmap pystr pystr)
    : gmap pystr pystr :=
  list_to_map (List.map (fun kv => (f (fst kv), snd kv)) (map_to_list h)).

(** The features that are read from the headers. *)
Definition header_features : list string :=
  ["has_reply_to"; "reply_to_mismatch"; "has_spf_fail"; "has_dkim_fail"].

(** Case-insensitive header lookup, as a property of the extractor:
    rewriting the header keys in another letter-case does not change the
    features read from the headers. *)
Definition header_lookup_case_insensitive : Prop :=
  forall (E : PyEnv) (email_data : EmailData) (f : pystr -> pystr),
    (forall k, str_lower (f k) = str_lower k) ->
    forall feature, In feature header_features ->
      _extract_metadata_features
        (with_headers email_data (rekey f (headers_of email_data))) !! feature
      = _extract_metadata_features email_data !! feature.

(** The empty dictionary as input: every key is missing. *)
Definition no_email : EmailData :=
  {| ed_body := None; ed_urls := None; ed_headers := None;
     ed_attachments := None; ed_has_html := None; ed_has_forms := None;
     ed_has_scripts := None; ed_has_iframes := None |}.

(** The entry of a numerical feature: its value as a float, 0.0 for a
    missing key. *)
Definition numerical_entry (o : option pyval) : R :=
  match o with
  | Some (VInt z) => IZR z
  | Some (VFloat r) => r
  | Some (VBool b) => if b then 1 else 0
  | Some (VList _) | None => 0
  end.

(** The entry of a boolean feature: 1 or 0, 0 for a missing key. *)
Definition boolean_entry (o : option pyval) : R :=
  match o with
  | Some v => if truthy v then 1 else 0
  | None => 0
  end.

(** A value that [float] converts: a float, a boolean, or an integer
    within the range of the floats. *)
Definition convertible (v : pyval) : Prop :=
  match v with
  | VInt z => in_float_range z = true
  | VFloat _ | VBool _ => True
  | VList _ => False
  end.

(** The named features of the mapping are, where present, convertible. *)
Definition convertible_at (features : dict) (names : list string) : Prop :=
  forall name v,
    In name names -> features !! name = Some v -> convertible v.

(** The integers bound to the named features are within float range. *)
Definition in_range_at (features : dict) (names : list string) : Prop :=
  forall name z,
    In name names -> features !! name = Some (VInt z) ->
    in_float_range z = true.

(** The row that the claim describes, for every mapping whatever. *)
Definition prepare_ml_input_always_returns : Prop :=
  forall features : dict,
    exists row : list R,
      prepare_ml_input features = Ok [row] /\
      length row = 32%nat /\
      row = List.map (fun name => numerical_entry (features !! name))
                     numerical_features
            ++ List.map (fun name => boolean_entry (features !! name))
                        boolean_features.

(** An empty or default input: every part is missing or empty. *)
Definition is_default_email (e : EmailData) : Prop :=
  default [] (ed_body e) = [] /\
  default [] (ed_urls e) = [] /\
  default ∅ (ed_headers e) = ∅ /\
  default [] (ed_attachments e) = [] /\
  default false (ed_has_html e) = false /\
  default false (ed_has_forms e) = false /\
  default false (ed_has_scripts e) = false /\
  default false (ed_has_iframes e) = false.

(** The keys that the extractor declares. *)
Definition declared_keys : list string :=
  ["word_count"; "char_count"; "sentence_count"; "avg_word_length";
   "unique_word_ratio"; "uppercase_ratio"; "punctuation_count";
   "readability_score";
   "url_count"; "suspicious_url_count"; "ip_url_count";
   "shortened_url_count"; "suspicious_tld_count"; "avg_url_entropy";
   "https_ratio";
   "has_reply_to"; "reply_to_mismatch"; "has_spf_fail"; "has_dkim_fail";
   "has_dmarc_fail"; "has_html"; "has_forms"; "has_scripts"; "has_iframes";
   "attachment_count"; "suspicious_attachment_count";
   "executable_attachment_count"; "max_attachment_size";
   "has_encrypted_attachment";
   "urgency_words_count"; "financial_words_count";
   "personal_info_words_count"; "has_urgency"; "has_financial";
   "has_personal_info_request";
   "tfidf_vector"].

(** The zero or false default of a feature. *)
Definition default_value (key : string) : pyval :=
  if String.eqb key "tfidf_vector" then VList (repeat (VInt 0) 1000)
  else if String.prefix "has_" key || String.eqb key "reply_to_mismatch"
       then VBool false
       else VInt 0.

(** Every declared key at its default. *)
Definition default_features : dict :=
  list_to_map (List.map (fun key => (key, default_value key)) declared_keys).

(** An extractor as the program can hold it: the lexicons of [__init__]
    and any state of the vectorizer. *)
Definition extractor_with (v : Sklearn.TfidfVectorizer) : FeatureExtractor :=
  set_vectorizer __init__ v.

(** The terms of one document and the vocabulary that a fit on this
    document alone learns. *)
Definition document_terms `{PyEnv} (text : pystr) : list pystr :=
  Sklearn.word_ngrams (sk_tokens text).

Definition fitted_vocabulary `{PyEnv} (k : nat) (text : pystr) : list pystr :=
  Sklearn.limit_features k [document_terms text]
    (Sklearn.sort_by Sklearn.pystr_leb
       (nodup Sklearn.pystr_eq_dec (document_terms text))).

(** [sys.maxsize]: no Python string or list is longer. *)
Definition sys_maxsize : Z := (2 ^ 63 - 1)%Z.

(** The strings and lists that the extractor measures for this email
    have the size of Python objects. *)
Definition python_sized `{PyEnv} (self : FeatureExtractor) (e : EmailData)
    : Prop :=
  let body := default [] (ed_body e) in
  (len body <= sys_maxsize)%Z /\
  (len (str_lower body) <= sys_maxsize)%Z /\
  (len (word_tokenize (str_lower body)) <= sys_maxsize)%Z /\
  (len (sent_tokenize body) <= sys_maxsize)%Z /\
  (len (default [] (ed_urls e)) <= sys_maxsize)%Z /\
  (len (default [] (ed_attachments e)) <= sys_maxsize)%Z /\
  (len (urgency_words self) <= sys_maxsize)%Z /\
  (len (financial_words self) <= sys_maxsize)%Z /\
  (len (personal_info_words self) <= sys_maxsize)%Z.

(** A number or a boolean. *)
Definition is_scalar (v : pyval) : Prop :=
  match v with
  | VList _ => False
  | _ => True
  end.

(** No key of the dictionary is bound to a list. *)
Definition no_lists (d : dict) : Prop :=
  forall key l, d !! key <> Some (VList l).

(** * Properties *)

(** ** Strings *)

Lemma count_from_chr (c : N) (s : pystr) :
  count_from 0 [c] s = count_occ N.eq_dec s c.
Proof.
  induction s as [|a s IH]; simpl; [reflexivity|].
  rewrite andb_true_r.
  destruct (N.eq_dec a c) as [->|Hne].
  - rewrite N.eqb_refl. simpl. now rewrite IH.
  - destruct (N.eqb_spec c a) as [->|_]; [congruence|apply IH].
Qed.

Lemma str_count_chr (s : pystr) (c : N) :
  str_count s (chr c) = count_occ N.eq_dec s c.
Proof. apply count_from_chr. Qed.

Lemma count_from_nil (skip : nat) (p : pystr) : count_from skip p [] = 0%nat.
Proof. reflexivity. Qed.

(** ** Entropy *)

Lemma ln2_pos : 0 < ln 2.
Proof. pose proof ln_lt_2. lra. Qed.

Lemma log2_1 : log2 1 = 0.
Proof. unfold log2. rewrite ln_1. field. pose proof ln2_pos. lra. Qed.

Lemma log2_half : log2 (1 / 2) = -1.
Proof.
  unfold log2. replace (1 / 2) with (/ 2) by lra.
  rewrite ln_Rinv by lra. field. pose proof ln2_pos. lra.
Qed.

Lemma and_or_0 (a b : R) : a <> 0 -> and_or a b 0 = b.
Proof.
  intros Ha. unfold and_or, R_truthy.
  destruct (Req_dec_T a 0); [contradiction|].
  destruct (Req_dec_T b 0); congruence.
Qed.

Lemma prob_pos (s : pystr) (c : N) :
  (0 < count_occ N.eq_dec s c)%nat -> 0 < prob s c.
Proof.
  intros Hc. unfold prob.
  assert (0 < length s)%nat as Hl.
  { destruct s; simpl in *; lia. }
  apply Rdiv_lt_0_compat; apply lt_0_INR; assumption.
Qed.

Lemma entropy_step_term (s : pystr) (e : R) (i : N) :
  entropy_step s e i = e - entropy_term s i.
Proof.
  unfold entropy_step, entropy_term. rewrite str_count_chr.
  destruct (Nat.ltb_spec 0 (count_occ N.eq_dec s i)) as [Hc|Hc].
  - fold (prob s i). rewrite and_or_0; [reflexivity|].
    pose proof (prob_pos s i Hc). lra.
  - lra.
Qed.

Lemma entropy_fold (s : pystr) (l : list N) (e : R) :
  fold_left (entropy_step s) l e = e - Rsum (List.map (entropy_term s) l).
Proof.
  revert e. induction l as [|i l IH]; intros e; simpl.
  - lra.
  - rewrite IH, entropy_step_term. lra.
Qed.

Lemma entropy_terms (s : pystr) :
  _calculate_entropy s = - Rsum (List.map (entropy_term s) (range 256)).
Proof.
  destruct s as [|c s].
  - unfold _calculate_entropy. symmetry. apply Ropp_eq_0_compat.
    generalize (range 256). intros l.
    induction l as [|i l IH]; simpl; [reflexivity|].
    rewrite IH. unfold entropy_term. simpl. lra.
  - unfold _calculate_entropy. rewrite entropy_fold. lra.
Qed.

Lemma Rsum_Permutation (l l' : list R) : Permutation l l' -> Rsum l = Rsum l'.
Proof.
  induction 1; simpl; lra.
Qed.

Lemma Rsum_filter {A} (f : A -> R) (keep : A -> bool) (l : list A) :
  (forall x, keep x = false -> f x = 0) ->
  Rsum (List.map f l) = Rsum (List.map f (List.filter keep l)).
Proof.
  intros Hz. induction l as [|x l IH]; simpl; [reflexivity|].
  destruct (keep x) eqn:Hk; simpl.
  - now rewrite IH.
  - rewrite (Hz x Hk), IH. lra.
Qed.

Lemma Rsum_map_ext {A} (f g : A -> R) (l : list A) :
  (forall x, In x l -> f x = g x) ->
  Rsum (List.map f l) = Rsum (List.map g l).
Proof.
  intros Hfg. induction l as [|x l IH]; simpl; [reflexivity|].
  rewrite (Hfg x) by (now left). rewrite IH; [reflexivity|].
  intros y Hy. apply Hfg. now right.
Qed.

Lemma in_range (n : nat) (i : N) : In i (range n) <-> (i < N.of_nat n)%N.
Proof.
  unfold range. rewrite in_map_iff. split.
  - intros (k & <- & Hk). apply in_seq in Hk. lia.
  - intros Hi. exists (N.to_nat i). split; [apply N2Nat.id|].
    apply in_seq. lia.
Qed.

Lemma NoDup_range (n : nat) : List.NoDup (range n).
Proof.
  unfold range. apply Finite.Injective_map_NoDup.
  - intros a b Hab. now apply Nat2N.inj.
  - apply seq_NoDup.
Qed.

(** The loop adds up the Shannon terms of the characters below 256, each
    weighted with its frequency in the whole string. *)
Lemma entropy_narrow (s : pystr) :
  _calculate_entropy s =
  - Rsum (List.map (fun c => prob s c * log2 (prob s c)) (narrow_chars s)).
Proof.
  rewrite entropy_terms. f_equal.
  rewrite (Rsum_filter _ (fun i => (0 <? count_occ N.eq_dec s i)%nat)).
  2:{ intros i Hi. unfold entropy_term. now rewrite Hi. }
  rewrite (Rsum_map_ext (entropy_term s)
             (fun c => prob s c * log2 (prob s c))).
  2:{ intros i Hi. apply filter_In in Hi as [_ Hi].
      unfold entropy_term. now rewrite Hi. }
  apply Rsum_Permutation, Permutation_map, Permutation.NoDup_Permutation.
  - apply List.NoDup_filter, NoDup_range.
  - apply List.NoDup_filter, List.NoDup_nodup.
  - intros i. unfold narrow_chars. rewrite !filter_In, in_range, nodup_In.
    rewrite (count_occ_In N.eq_dec), Nat.ltb_lt, N.ltb_lt.
    change (N.of_nat 256) with 256%N. unfold gt. tauto.
Qed.

(** X18 — on a string whose characters are all below 256 (every ASCII
    or Latin-1 URL) the helper is the Shannon entropy of the string. *)
Lemma entropy_shannon_narrow (s : pystr) :
  Forall (fun c => (c < 256)%N) s ->
  _calculate_entropy s = shannon_entropy s.
Proof.
  intros Hs. rewrite entropy_narrow. unfold shannon_entropy, narrow_chars.
  do 3 f_equal. apply forallb_filter_id. apply forallb_forall.
  intros c Hc. apply nodup_In in Hc. rewrite List.Forall_forall in Hs.
  apply N.ltb_lt. apply Hs. assumption.
Qed.

Lemma entropy_term_Permutation (s s' : pystr) (i : N) :
  Permutation s s' -> entropy_term s' i = entropy_term s i.
Proof.
  intros Hp. unfold entropy_term, prob.
  rewrite <- (Permutation_length Hp).
  now rewrite <- (proj1 (Permutation_count_occ N.eq_dec s s') Hp i).
Qed.

Lemma entropy_term_repeat (c : N) (n : nat) (i : N) :
  entropy_term (repeat c n) i = 0.
Proof.
  unfold entropy_term.
  destruct (Nat.ltb_spec 0 (count_occ N.eq_dec (repeat c n) i)) as [Hc|];
    [|reflexivity].
  assert (i = c) as ->.
  { apply (count_occ_In N.eq_dec) in Hc. now apply repeat_spec in Hc. }
  unfold prob. rewrite count_occ_repeat_eq in * by reflexivity.
  rewrite repeat_length.
  replace (INR n / INR n) with 1.
  - rewrite log2_1. lra.
  - field. apply not_0_INR. lia.
Qed.

(** C6 — the entropy of the empty string is 0; the entropy does not
    depend on the order of the characters (it is the same for every
    permutation of a string); the entropy of one character repeated one
    or more times is 0. *)
Theorem calculate_entropy_laws :
  _calculate_entropy [] = 0 /\
  (forall s s' : pystr,
      Permutation s s' -> _calculate_entropy s' = _calculate_entropy s) /\
  (forall (c : N) (n : nat),
      (1 <= n)%nat -> _calculate_entropy (repeat c n) = 0).
Proof.
  split; [reflexivity|split].
  - intros s s' Hp. rewrite !entropy_terms. do 2 f_equal.
    apply map_ext. intros i. now apply entropy_term_Permutation.
  - intros c n _. rewrite entropy_terms.
    apply Ropp_eq_0_compat.
    generalize (range 256). intros l.
    induction l as [|i l IH]; simpl; [reflexivity|].
    rewrite IH, entropy_term_repeat. lra.
Qed.

Lemma calculate_entropy_laws_witness :
  _calculate_entropy (str "login") = _calculate_entropy (str "nigol") /\
  _calculate_entropy (str "aaa") = 0.
Proof.
  destruct calculate_entropy_laws as (_ & Hperm & Hrep). split.
  - apply Hperm. apply Permutation_rev.
  - apply (Hrep 97%N 3%nat). lia.
Defined.

(** C7 — on a string with a character above 255 the helper is not the
    Shannon entropy: for the two characters "a" and the euro sign it
    answers 1/2 where the entropy of the string is 1. *)
Theorem calculate_entropy_wide_char :
  _calculate_entropy [97; 8364]%N = 1 / 2 /\
  shannon_entropy [97; 8364]%N = 1.
Proof.
  split.
  - rewrite entropy_narrow. unfold narrow_chars, prob. simpl.
    replace (1 / (1 + 1)) with (1 / 2) by lra.
    rewrite log2_half. lra.
  - unfold shannon_entropy, prob. simpl.
    replace (1 / (1 + 1)) with (1 / 2) by lra.
    rewrite log2_half. lra.
Qed.

(** ** Text features *)

Lemma size_list_to_set_le (l : list pystr) :
  (size (list_to_set l : gset pystr) <= length l)%nat.
Proof.
  induction l as [|x l IH].
  - change (list_to_set [] : gset pystr) with (∅ : gset pystr).
    rewrite size_empty. simpl. lia.
  - change (list_to_set (x :: l) : gset pystr)
      with ({[x]} ∪ list_to_set l : gset pystr).
    rewrite size_union_alt, size_singleton. simpl.
    assert (size (list_to_set l ∖ {[x]} : gset pystr)
            <= size (list_to_set l : gset pystr))%nat.
    { apply subseteq_size, subseteq_difference_l. reflexivity. }
    lia.
Qed.

Lemma count_if_le {A} (f : A -> bool) (l : list A) :
  (0 <= count_if f l <= len l)%Z.
Proof.
  unfold count_if, len. pose proof (List.filter_length_le f l). lia.
Qed.

(** A guarded quotient of a part by the whole never divides by zero and
    stays between 0 and 1. *)
Lemma guarded_ratio_unit (a b : Z) :
  (0 <= a <= b)%Z ->
  exists v, guarded_ratio a b = Ok v /\ in_unit v /\ (b = 0%Z -> v = VInt 0).
Proof.
  intros Hab. unfold guarded_ratio, truediv.
  destruct (Z.gtb_spec b 0) as [Hb|Hb].
  - destruct (Z.eqb_spec b 0) as [->|_]; [lia|].
    eexists. split; [reflexivity|]. split; [|lia]. simpl.
    assert (0 < IZR b) by (apply IZR_lt; lia).
    assert (0 <= IZR a) by (apply IZR_le; lia).
    assert (IZR a <= IZR b) by (apply IZR_le; lia).
    split.
    + apply Rmult_le_pos; [assumption|]. left. now apply Rinv_0_lt_compat.
    + apply Rmult_le_reg_r with (IZR b); [assumption|].
      unfold Rdiv. rewrite Rmult_assoc, Rinv_l by lra. lra.
  - exists (VInt 0). split; [reflexivity|]. split; [simpl; lia|reflexivity].
Qed.

(** C8 — for every text the extraction of the text features returns (no
    division by zero is raised) and the features unique_word_ratio and
    uppercase_ratio are numbers between 0 and 1; for the empty text both
    are 0. *)
Theorem text_ratios_in_unit_interval `{PyEnv} (text : pystr) :
  exists (features : dict) (unique_word_ratio uppercase_ratio : pyval),
    _extract_text_features text = Ok features /\
    features !! "unique_word_ratio" = Some unique_word_ratio /\
    features !! "uppercase_ratio" = Some uppercase_ratio /\
    in_unit unique_word_ratio /\ in_unit uppercase_ratio /\
    (text = [] -> unique_word_ratio = VInt 0 /\ uppercase_ratio = VInt 0).
Proof.
  destruct text as [|c text].
  - exists (list_to_map
              [("word_count", VInt 0); ("char_count", VInt 0);
               ("sentence_count", VInt 0); ("avg_word_length", VInt 0);
               ("unique_word_ratio", VInt 0); ("uppercase_ratio", VInt 0);
               ("punctuation_count", VInt 0); ("readability_score", VInt 0)]),
      (VInt 0), (VInt 0).
    repeat split; simpl; lia.
  - unfold _extract_text_features.
    set (txt := c :: text).
    set (words := word_tokenize (str_lower txt)).
    destruct (guarded_ratio (len txt) (len words)) as [avg|e] eqn:Havg.
    2:{ exfalso. unfold guarded_ratio, truediv in Havg.
        destruct (Z.gtb_spec (len words) 0); [|discriminate].
        destruct (Z.eqb_spec (len words) 0); [lia|discriminate]. }
    destruct (guarded_ratio_unit
                (Z.of_nat (size (list_to_set words : gset pystr))) (len words))
      as (u & Hu & Hu1 & _).
    { pose proof (size_list_to_set_le words). unfold len. lia. }
    destruct (guarded_ratio_unit (count_if chr_isupper txt) (len txt))
      as (r & Hr & Hr1 & _).
    { apply count_if_le. }
    rewrite Hu, Hr. simpl.
    eexists _, u, r. split; [reflexivity|].
    repeat split; try assumption; try discriminate.
Qed.

Lemma text_ratios_in_unit_interval_witness :
  exists (features : dict) (unique_word_ratio uppercase_ratio : pyval),
    _extract_text_features (H := AsciiEnv.env) (str "Verify NOW")
      = Ok features /\
    features !! "unique_word_ratio" = Some unique_word_ratio /\
    features !! "uppercase_ratio" = Some uppercase_ratio /\
    in_unit unique_word_ratio /\ in_unit uppercase_ratio /\
    (str "Verify NOW" = [] ->
     unique_word_ratio = VInt 0 /\ uppercase_ratio = VInt 0).
Proof.
  exact (text_ratios_in_unit_interval (H := AsciiEnv.env) (str "Verify NOW")).
Defined.

(** ** URL features *)

Lemma count_if_cons {A} (f : A -> bool) (x : A) (l : list A) :
  count_if f (x :: l) = ((if f x then 1 else 0) + count_if f l)%Z.
Proof. unfold count_if, len. simpl. destruct (f x); simpl; lia. Qed.

Section UrlLoop.
Context `{PyEnv} (self : FeatureExtractor).

Lemma url_step_inv (features : url_features) (high : Z) (url : pystr) :
  url_inv features high ->
  url_inv (url_step self features url)
          (high + (if is_high_entropy url then 1 else 0))%Z.
Proof.
  unfold url_inv, url_step. intros Hinv.
  destruct (is_ip_url url), (is_shortened url),
    (has_suspicious_tld self url), (is_high_entropy url); simpl; lia.
Qed.

Lemma url_fold_inv (urls : list pystr) (features : url_features) (high : Z) :
  url_inv features high ->
  url_inv (fold_left (url_step self) urls features)
          (high + count_if is_high_entropy urls)%Z.
Proof.
  revert features high. induction urls as [|url urls IH]; intros f high Hinv.
  - simpl. unfold count_if, len. simpl. now rewrite Z.add_0_r.
  - simpl. rewrite count_if_cons, Z.add_assoc.
    apply IH. now apply url_step_inv.
Qed.

Lemma url_loop_inv (urls : list pystr) :
  url_inv (url_loop self urls) (count_if is_high_entropy urls).
Proof.
  unfold url_loop.
  rewrite <- (Z.add_0_l (count_if is_high_entropy urls)).
  apply url_fold_inv. reflexivity.
Qed.

(** The counters of one URL. *)
Lemma url_step_counts (features : url_features) (url : pystr) :
  ip_url_count (url_step self features url) =
    (ip_url_count features + if is_ip_url url then 1 else 0)%Z /\
  shortened_url_count (url_step self features url) =
    (shortened_url_count features + if is_shortened url then 1 else 0)%Z.
Proof.
  unfold url_step.
  destruct (is_ip_url url), (is_shortened url),
    (has_suspicious_tld self url); simpl; lia.
Qed.

Lemma https_ratio_ok (l : list bool) :
  exists v,
    match l with
    | [] => Ok (VInt 0)
    | _ => truediv (count_if (fun b : bool => b) l) (len l)
    end = Ok v.
Proof.
  destruct l as [|b l]; [eexists; reflexivity|].
  unfold truediv.
  destruct (Z.eqb_spec (len (b :: l)) 0) as [Hl|_]; [|eexists; reflexivity].
  unfold len in Hl. simpl in Hl. lia.
Qed.

(** The dictionary of the URL features, read at the four counters. *)
Lemma url_features_lookup (urls : list pystr) :
  exists features : dict,
    _extract_url_features self urls = Ok features /\
    features !! "url_count" = Some (VInt (len urls)) /\
    features !! "suspicious_url_count" =
      Some (VInt (suspicious_url_count (url_loop self urls))) /\
    features !! "ip_url_count" =
      Some (VInt (ip_url_count (url_loop self urls))) /\
    features !! "shortened_url_count" =
      Some (VInt (shortened_url_count (url_loop self urls))) /\
    features !! "suspicious_tld_count" =
      Some (VInt (suspicious_tld_count (url_loop self urls))).
Proof.
  unfold _extract_url_features.
  destruct (https_ratio_ok (has_https (url_loop self urls))) as [v Hv].
  rewrite Hv. simpl. eexists. split; [reflexivity|].
  repeat split; reflexivity.
Qed.

End UrlLoop.

(** C4 — for every list of URLs the feature suspicious_url_count is the
    sum of ip_url_count, shortened_url_count, suspicious_tld_count and the
    number of URLs whose entropy exceeds 4.5; nothing is deduplicated per
    URL, so one URL that is both IP-hosted and shortened makes the count
    at least 2 for a list of length 1. *)
Theorem suspicious_url_count_additive :
  (forall (E : PyEnv) (self : FeatureExtractor) (urls : list pystr),
      exists (features : dict) (ip shortened tld : Z),
        _extract_url_features self urls = Ok features /\
        features !! "ip_url_count" = Some (VInt ip) /\
        features !! "shortened_url_count" = Some (VInt shortened) /\
        features !! "suspicious_tld_count" = Some (VInt tld) /\
        features !! "suspicious_url_count" =
          Some (VInt (ip + shortened + tld
                      + count_if is_high_entropy urls)%Z)) /\
  (forall (E : PyEnv) (self : FeatureExtractor) (url : pystr),
      is_ip_url url = true -> is_shortened url = true ->
      exists (features : dict) (n : Z),
        _extract_url_features self [url] = Ok features /\
        features !! "url_count" = Some (VInt 1) /\
        features !! "suspicious_url_count" = Some (VInt n) /\
        (2 <= n)%Z).
Proof.
  split.
  - intros E self urls.
    destruct (url_features_lookup self urls)
      as (features & Hok & _ & Hsus & Hip & Hsh & Htld).
    exists features. eexists _, _, _.
    repeat (split; [eassumption|]).
    rewrite Hsus. do 2 f_equal. apply url_loop_inv.
  - intros E self url Hip Hsh.
    destruct (url_features_lookup self [url])
      as (features & Hok & Hcount & Hsus & _).
    exists features. eexists. repeat (split; [eassumption|]).
    unfold url_loop, url_step. simpl. rewrite Hip, Hsh.
    destruct (has_suspicious_tld self url), (is_high_entropy url);
      simpl; lia.
Qed.

Lemma suspicious_url_count_additive_witness :
  exists (features : dict) (n : Z),
    _extract_url_features (H := AsciiEnv.env) __init__
      [str "http://192.168.1.5/bit.ly/x"] = Ok features /\
    features !! "url_count" = Some (VInt 1) /\
    features !! "suspicious_url_count" = Some (VInt n) /\
    (2 <= n)%Z.
Proof.
  apply (proj2 suspicious_url_count_additive AsciiEnv.env __init__
           (str "http://192.168.1.5/bit.ly/x")); reflexivity.
Defined.

(** ** Metadata features *)

Lemma lower_chr_idem (c : N) :
  AsciiEnv.lower_chr (AsciiEnv.lower_chr c) = AsciiEnv.lower_chr c.
Proof.
  unfold AsciiEnv.lower_chr.
  destruct (AsciiEnv.between 65 90 c) eqn:Hc; [|now rewrite Hc].
  replace (AsciiEnv.between 65 90 (c + 32)) with false; [reflexivity|].
  unfold AsciiEnv.between in *.
  apply andb_true_iff in Hc as [Hlo Hhi].
  apply N.leb_le in Hlo, Hhi.
  symmetry. apply andb_false_iff. right. apply N.leb_gt. lia.
Qed.

(** C5, as stated, fails: the header "Reply-To: a@b.c" is seen, the same
    header under the key "reply-to" is not. *)
Lemma header_lookup_is_case_sensitive : ~ header_lookup_case_insensitive.
Proof.
  intros Hclaim.
  specialize (Hclaim AsciiEnv.env
                (with_headers no_email {[ str "Reply-To" := str "a@b.c" ]})
                (List.map AsciiEnv.lower_chr)).
  specialize (Hclaim ltac:(intros k; simpl; rewrite List.map_map;
                           apply List.map_ext; intros c; apply lower_chr_idem)
                "has_reply_to" ltac:(now left)).
  vm_compute in Hclaim. discriminate Hclaim.
Qed.

(** C5, amended — the headers are read under the exact keys "Reply-To",
    "From" and "Authentication-Results": two email records whose header
    maps agree at these three keys have the same has_reply_to,
    reply_to_mismatch, has_spf_fail and has_dkim_fail, whatever else the
    maps hold (a header under another letter-case of a key included). *)
Theorem header_lookup_exact_keys `{PyEnv} (e e' : EmailData) :
  headers_of e !! str "Reply-To" = headers_of e' !! str "Reply-To" ->
  headers_of e !! str "From" = headers_of e' !! str "From" ->
  headers_of e !! str "Authentication-Results"
    = headers_of e' !! str "Authentication-Results" ->
  forall feature, In feature header_features ->
    _extract_metadata_features e' !! feature
    = _extract_metadata_features e !! feature.
Proof.
  unfold headers_of, _extract_metadata_features.
  intros Hreply Hfrom Hauth feature Hin. cbv zeta.
  rewrite Hreply, Hfrom, Hauth.
  destruct (default ∅ (ed_headers e') !! str "Reply-To") as [[|c r]|];
    try destruct (bool_decide _);
    repeat (destruct Hin as [<-|Hin]; [reflexivity|]);
    destruct Hin.
Qed.

Lemma header_lookup_exact_keys_witness :
  _extract_metadata_features (H := AsciiEnv.env)
    (with_headers no_email
       (<[str "reply-to" := str "x@y.z"]>
          {[ str "Reply-To" := str "a@b.c" ]})) !! "reply_to_mismatch"
  = _extract_metadata_features (H := AsciiEnv.env)
      (with_headers no_email {[ str "Reply-To" := str "a@b.c" ]})
      !! "reply_to_mismatch".
Proof.
  apply (header_lookup_exact_keys (H := AsciiEnv.env)
           (with_headers no_email {[ str "Reply-To" := str "a@b.c" ]})
           (with_headers no_email
              (<[str "reply-to" := str "x@y.z"]>
                 {[ str "Reply-To" := str "a@b.c" ]})));
    [reflexivity|reflexivity|reflexivity|].
  right. left. reflexivity.
Defined.

(** C10 — has_dmarc_fail is False for every email record: in the metadata
    features, and in the feature set of [extract_all_features] whenever it
    returns one. *)
Theorem has_dmarc_fail_is_false `{PyEnv} (email_data : EmailData) :
  _extract_metadata_features email_data !! "has_dmarc_fail"
    = Some (VBool false) /\
  forall (self self' : FeatureExtractor) (features : dict),
    extract_all_features email_data self = (Ok features, self') ->
    features !! "has_dmarc_fail" = Some (VBool false).
Proof.
  assert (_extract_metadata_features email_data !! "has_dmarc_fail"
          = Some (VBool false)) as Hmeta.
  { unfold _extract_metadata_features.
    destruct (default ∅ (ed_headers email_data) !! str "Reply-To")
      as [[|c r]|]; try destruct (bool_decide _); reflexivity. }
  split; [exact Hmeta|].
  intros self self' features.
  unfold extract_all_features, M_bind, M_pure, M_ret, update.
  destruct (_extract_text_features _) as [text_f|]; [|discriminate].
  destruct (_extract_url_features _ _) as [url_f|]; [|discriminate].
  destruct (_get_tfidf_features _ self) as [[v|] self1]; [|discriminate].
  intros [= <- _].
  rewrite lookup_insert_ne by discriminate.
  rewrite lookup_union_r by reflexivity.
  rewrite lookup_union_r by reflexivity.
  now apply lookup_union_Some_l.
Qed.

Lemma has_dmarc_fail_is_false_witness :
  _extract_metadata_features (H := AsciiEnv.env) no_email !! "has_dmarc_fail"
    = Some (VBool false) /\
  default_features !! "has_dmarc_fail" = Some (VBool false).
Proof.
  destruct (has_dmarc_fail_is_false (H := AsciiEnv.env) no_email)
    as [Hmeta Hall].
  split; [exact Hmeta|].
  apply (Hall __init__ __init__ default_features). reflexivity.
Defined.

(** ** The input vector of the model *)

Lemma append_numerical_spec (features : dict) (names : list string)
    (feature_vector : list R) :
  convertible_at features names ->
  append_numerical features names feature_vector
  = Ok (feature_vector
        ++ List.map (fun name => numerical_entry (features !! name)) names).
Proof.
  revert feature_vector.
  induction names as [|name names IH]; intros acc Hs.
  - simpl. now rewrite app_nil_r.
  - assert (convertible_at features names) as Hs'.
    { intros n v Hn. apply Hs. now right. }
    pose proof (Hs name) as Hname.
    cbn [append_numerical List.map].
    destruct (features !! name) as [[z|r|b|l]|] eqn:Hlook;
      cbn [default from_option Datatypes.id py_float numerical_entry].
    + rewrite (Hname (VInt z) ltac:(now left) eq_refl).
      cbn [mbind result_bind]. rewrite IH by assumption.
      now rewrite <- app_assoc.
    + cbn [mbind result_bind]. rewrite IH by assumption.
      now rewrite <- app_assoc.
    + cbn [mbind result_bind]. rewrite IH by assumption.
      now rewrite <- app_assoc.
    + destruct (Hname (VList l) ltac:(now left) eq_refl).
    + change (in_float_range 0) with true.
      cbn [mbind result_bind]. rewrite IH by assumption.
      now rewrite <- app_assoc.
Qed.

Lemma append_boolean_spec (features : dict) (names : list string)
    (feature_vector : list R) :
  append_boolean features names feature_vector
  = feature_vector
    ++ List.map (fun name => boolean_entry (features !! name)) names.
Proof.
  revert feature_vector.
  induction names as [|name names IH]; intros acc; simpl.
  - now rewrite app_nil_r.
  - rewrite IH, <- app_assoc. simpl.
    destruct (features !! name) as [v|]; simpl; [reflexivity|].
    unfold R_truthy. reflexivity.
Qed.

(** C9, as stated, fails: for a mapping that binds word_count to the
    integer 2^1024 the conversion to float raises OverflowError and no row
    is returned. *)
Lemma prepare_ml_input_can_raise : ~ prepare_ml_input_always_returns.
Proof.
  intros Hclaim.
  destruct (Hclaim {[ "word_count" := VInt (2 ^ 1024) ]})
    as (row & Hrow & _).
  assert (prepare_ml_input {[ "word_count" := VInt (2 ^ 1024) ]}
          = Raise OverflowError) as Hraise by reflexivity.
  rewrite Hraise in Hrow. discriminate Hrow.
Qed.

(** C9, amended — for every feature mapping, keys missing or not, in
    which each numerical feature that is present is a float, a boolean or
    an integer within float range, [prepare_ml_input] returns one row of
    length 32: the 20 numerical features in their fixed order (0.0 for a
    missing key), then the 12 boolean features as 1 or 0 in their fixed
    order (0 for a missing key). *)
Theorem prepare_ml_input_row (features : dict) :
  convertible_at features numerical_features ->
  exists row : list R,
    prepare_ml_input features = Ok [row] /\
    length row = 32%nat /\
    row = List.map (fun name => numerical_entry (features !! name))
                   numerical_features
          ++ List.map (fun name => boolean_entry (features !! name))
                      boolean_features.
Proof.
  intros Hs. unfold prepare_ml_input.
  rewrite (append_numerical_spec _ _ _ Hs).
  unfold mbind, result_bind. rewrite append_boolean_spec.
  eexists. split; [reflexivity|]. split; [|reflexivity].
  rewrite !length_app, !length_map. reflexivity.
Qed.

Lemma prepare_ml_input_row_witness :
  exists row : list R,
    prepare_ml_input
      (<["has_html" := VBool true]> {[ "url_count" := VInt 2 ]}) = Ok [row] /\
    length row = 32%nat /\
    row = List.map (fun name =>
                      numerical_entry
                        ((<["has_html" := VBool true]>
                            {[ "url_count" := VInt 2 ]} : dict) !! name))
                   numerical_features
          ++ List.map (fun name =>
                         boolean_entry
                           ((<["has_html" := VBool true]>
                               {[ "url_count" := VInt 2 ]} : dict) !! name))
                      boolean_features.
Proof.
  apply (prepare_ml_input_row
           (<["has_html" := VBool true]> {[ "url_count" := VInt 2 ]})).
  intros name v Hin.
  repeat (destruct Hin as [<-|Hin];
          [intros Hv; vm_compute in Hv;
           first [discriminate Hv | injection Hv as <-; reflexivity]|]).
  destruct Hin.
Defined.

(** ** The feature set of an empty email *)

(** C3 — for every empty or default email record [extract_all_features]
    returns, without an error and without touching the vectorizer, the
    feature set that binds every declared key to its zero or false
    default; no key is missing and there is no other key. *)
Theorem empty_email_default_features `{PyEnv}
    (v : Sklearn.TfidfVectorizer) (e : EmailData) :
  is_default_email e ->
  extract_all_features e (extractor_with v)
    = (Ok default_features, extractor_with v) /\
  (forall key, In key declared_keys ->
     default_features !! key = Some (default_value key)) /\
  dom default_features = list_to_set declared_keys.
Proof.
  intros (Hbody & Hurls & Hheaders & Hatt & Hhtml & Hforms & Hscripts & Hifr).
  split; [|split].
  - unfold extract_all_features, _extract_metadata_features,
      _extract_behavioral_features.
    rewrite Hbody, Hurls, Hheaders, Hatt, Hhtml, Hforms, Hscripts, Hifr.
    rewrite !lookup_empty. cbn [default from_option id].
    rewrite !str_lower_empty.
    reflexivity.
  - intros key Hin.
    repeat (destruct Hin as [<-|Hin]; [reflexivity|]).
    destruct Hin.
  - reflexivity.
Qed.

Lemma empty_email_default_features_witness :
  extract_all_features (H := AsciiEnv.env) no_email
    (extractor_with (tfidf_vectorizer __init__))
  = (Ok default_features, extractor_with (tfidf_vectorizer __init__)).
Proof.
  apply (empty_email_default_features (H := AsciiEnv.env)
           (tfidf_vectorizer __init__) no_email).
  repeat split; reflexivity.
Defined.

(** ** The text embedding *)

Lemma length_insert_sorted {A} (leb : A -> A -> bool) (x : A) (l : list A) :
  length (Sklearn.insert_sorted leb x l) = S (length l).
Proof.
  induction l as [|y l IH]; simpl; [reflexivity|].
  destruct (leb x y); simpl; [reflexivity|now rewrite IH].
Qed.

Lemma length_sort_by {A} (leb : A -> A -> bool) (l : list A) :
  length (Sklearn.sort_by leb l) = length l.
Proof.
  induction l as [|x l IH]; simpl; [reflexivity|].
  unfold Sklearn.sort_by in *. now rewrite length_insert_sorted, IH.
Qed.

Lemma length_nodup_le {A} (dec : forall x y : A, {x = y} + {x <> y})
    (l : list A) :
  (length (nodup dec l) <= length l)%nat.
Proof.
  induction l as [|x l IH]; simpl; [lia|].
  destruct (in_dec dec x l); simpl; lia.
Qed.

Lemma nodup_nonempty {A} (dec : forall x y : A, {x = y} + {x <> y})
    (l : list A) :
  l <> [] -> nodup dec l <> [].
Proof.
  intros Hl Hn. destruct l as [|x l]; [congruence|].
  assert (In x (nodup dec (x :: l))) as Hin by (apply nodup_In; now left).
  rewrite Hn in Hin. destruct Hin.
Qed.

Lemma length_limit_features `{PyEnv} (k : nat) (docs : list (list pystr))
    (vocab : list pystr) :
  (length (Sklearn.limit_features k docs vocab) <= length vocab)%nat.
Proof.
  unfold Sklearn.limit_features.
  destruct (length vocab <=? k)%nat; [lia|].
  rewrite length_map.
  etransitivity; [apply List.filter_length_le|].
  rewrite length_combine. lia.
Qed.

Lemma length_ngrams (n : nat) (tokens : list pystr) :
  (1 <= n)%nat -> (length (Sklearn.ngrams n tokens) <= length tokens)%nat.
Proof.
  intros Hn. unfold Sklearn.ngrams. rewrite length_map, length_seq. lia.
Qed.

Lemma length_tfidf_row (vocab : list pystr) (idfs : list R)
    (doc : list pystr) :
  length idfs = length vocab ->
  length (Sklearn.tfidf_row vocab idfs doc) = length vocab.
Proof.
  intros Hl. unfold Sklearn.tfidf_row.
  destruct (Req_dec_T _ 0); rewrite ?length_map, length_combine; lia.
Qed.

Section Embedding.
Context `{PyEnv} (self : FeatureExtractor).

Let k := Sklearn.max_features (tfidf_vectorizer self).

(** A text with a token is fitted: the row that is returned and the
    state that is left are those of a vocabulary learnt from this text
    alone, whatever the vectorizer held before. *)
Lemma get_tfidf_features_fits (text : pystr) :
  text <> [] -> sk_tokens text <> [] ->
  exists (row : list R) (idfs : list R),
    _get_tfidf_features text self
    = (Ok (List.map VFloat row),
       set_vectorizer self
         {| Sklearn.max_features := k;
            Sklearn.vocabulary_ := Some (fitted_vocabulary k text);
            Sklearn.idf_ := Some idfs |}) /\
    length row = length (fitted_vocabulary k text).
Proof.
  intros Htext Htok. unfold _get_tfidf_features, Sklearn.fit_transform.
  destruct text as [|c text]; [congruence|].
  set (txt := c :: text) in *.
  cbn [List.map List.concat]. rewrite app_nil_r.
  fold (document_terms txt).
  destruct (Sklearn.sort_by Sklearn.pystr_leb
              (nodup Sklearn.pystr_eq_dec (document_terms txt)))
    as [|t vocab] eqn:Hvocab.
  - exfalso.
    apply (f_equal (@length _)) in Hvocab.
    rewrite length_sort_by in Hvocab. simpl in Hvocab.
    apply length_zero_iff_nil in Hvocab.
    apply nodup_nonempty in Hvocab; [assumption|].
    unfold document_terms, Sklearn.word_ngrams.
    destruct (sk_tokens txt); [congruence|discriminate].
  - unfold fitted_vocabulary. rewrite Hvocab. fold k.
    eexists _, _. split; [reflexivity|].
    apply length_tfidf_row. now rewrite length_map.
Qed.

(** A text without a token (punctuation only, stop words only) is
    refused by the fit: the vocabulary held before stays, the idf weights
    are gone. *)
Lemma get_tfidf_features_raises (text : pystr) :
  text <> [] -> sk_tokens text = [] ->
  _get_tfidf_features text self
  = (Raise ValueError,
     set_vectorizer self
       {| Sklearn.max_features := k;
          Sklearn.vocabulary_ := Sklearn.vocabulary_ (tfidf_vectorizer self);
          Sklearn.idf_ := None |}).
Proof.
  intros Htext Htok. unfold _get_tfidf_features, Sklearn.fit_transform.
  destruct text as [|c text]; [congruence|].
  cbn [List.map List.concat]. rewrite Htok. reflexivity.
Qed.

(** The row is no longer than three times the number of tokens. *)
Lemma length_fitted_vocabulary (text : pystr) :
  (length (fitted_vocabulary k text) <= 3 * length (sk_tokens text))%nat.
Proof.
  unfold fitted_vocabulary.
  etransitivity; [apply length_limit_features|].
  rewrite length_sort_by.
  etransitivity; [apply length_nodup_le|].
  unfold document_terms, Sklearn.word_ngrams. rewrite !length_app.
  pose proof (length_ngrams 2 (sk_tokens text)).
  pose proof (length_ngrams 3 (sk_tokens text)). lia.
Qed.

End Embedding.

(** C1 — scoring a text refits the term model: a fresh extractor has no
    vocabulary, after the text "hello world" it holds the vocabulary of
    that text, and after "verify account" that of the second text; the
    state after a call is not the state before it. *)
Theorem get_tfidf_features_refits :
  let self0 := __init__ in
  let self1 :=
    snd (_get_tfidf_features (H := AsciiEnv.env) (str "hello world") self0) in
  let self2 :=
    snd (_get_tfidf_features (H := AsciiEnv.env) (str "verify account") self1) in
  Sklearn.vocabulary_ (tfidf_vectorizer self0) = None /\
  Sklearn.vocabulary_ (tfidf_vectorizer self1)
    = Some [str "hello"; str "hello world"; str "world"] /\
  Sklearn.vocabulary_ (tfidf_vectorizer self2)
    = Some [str "account"; str "verify"; str "verify account"] /\
  self1 <> self0 /\ self2 <> self1.
Proof.
  cbv zeta.
  assert (Sklearn.vocabulary_
            (tfidf_vectorizer
               (snd (_get_tfidf_features (H := AsciiEnv.env)
                       (str "hello world") __init__)))
          = Some [str "hello"; str "hello world"; str "world"]) as H1
    by reflexivity.
  assert (Sklearn.vocabulary_
            (tfidf_vectorizer
               (snd (_get_tfidf_features (H := AsciiEnv.env)
                       (str "verify account")
                       (snd (_get_tfidf_features (H := AsciiEnv.env)
                               (str "hello world") __init__)))))
          = Some [str "account"; str "verify"; str "verify account"]) as H2
    by reflexivity.
  repeat split; try assumption; try reflexivity.
  - intros Heq. rewrite Heq in H1. discriminate H1.
  - intros Heq. rewrite Heq, H1 in H2. discriminate H2.
Qed.

(** C2 — the length of the returned vector is not fixed: 1000 for the
    empty text, 3 for "hello world", and for "!!!" no vector is returned,
    the fit raises. *)
Theorem tfidf_vector_length_varies :
  fst (_get_tfidf_features (H := AsciiEnv.env) [] __init__)
    = Ok (repeat (VInt 0) 1000) /\
  (exists v : list pyval,
      fst (_get_tfidf_features (H := AsciiEnv.env) (str "hello world") __init__)
        = Ok v /\
      length v = 3%nat) /\
  fst (_get_tfidf_features (H := AsciiEnv.env) (str "!!!") __init__)
    = Raise ValueError.
Proof.
  split; [reflexivity|split].
  - destruct (get_tfidf_features_fits (H := AsciiEnv.env) __init__
                (str "hello world")) as (row & idfs & Hcall & Hlen);
      [discriminate|discriminate|].
    rewrite Hcall. eexists. split; [reflexivity|].
    rewrite length_map, Hlen. reflexivity.
  - rewrite (get_tfidf_features_raises (H := AsciiEnv.env));
      [reflexivity|discriminate|reflexivity].
Qed.

(** * Further properties of the extractor *)

(** ** Attachments *)

Section Attachments.
Context `{PyEnv}.

(** The accumulators after the loop over the attachments. *)
Lemma attachment_features_lookup (attachments : list Attachment) :
  let features :=
    fold_left attachment_step attachments
      {| suspicious_attachment_count := 0;
         executable_attachment_count := 0;
         max_attachment_size := 0;
         has_encrypted_attachment := false |} in
  let d := _extract_attachment_features attachments in
  d !! "attachment_count" = Some (VInt (len attachments)) /\
  d !! "suspicious_attachment_count"
    = Some (VInt (suspicious_attachment_count features)) /\
  d !! "executable_attachment_count"
    = Some (VInt (executable_attachment_count features)) /\
  d !! "max_attachment_size" = Some (VInt (max_attachment_size features)) /\
  d !! "has_encrypted_attachment"
    = Some (VBool (has_encrypted_attachment features)).
Proof. cbv zeta. repeat split; reflexivity. Qed.

Lemma attachment_fold_counts (attachments : list Attachment)
    (features : attachment_features) (n : Z) :
  (0 <= executable_attachment_count features
     <= suspicious_attachment_count features)%Z ->
  (suspicious_attachment_count features <= n)%Z ->
  let features' := fold_left attachment_step attachments features in
  (0 <= executable_attachment_count features'
     <= suspicious_attachment_count features')%Z /\
  (suspicious_attachment_count features' <= n + len attachments)%Z.
Proof.
  revert features n.
  induction attachments as [|a attachments IH]; intros f n Hx Hs; cbv zeta.
  - unfold len. simpl. lia.
  - simpl fold_left.
    replace (n + len (a :: attachments))%Z with ((n + 1) + len attachments)%Z
      by (unfold len; simpl length; lia).
    apply IH; unfold attachment_step;
      cbn [suspicious_attachment_count executable_attachment_count];
      destruct (str_in (extension (default [] (att_name a)))
                  suspicious_extensions),
        (str_in (extension (default [] (att_name a)))
           executable_extensions); simpl; lia.
Qed.

Lemma attachment_fold_max (attachments : list Attachment)
    (features : attachment_features) :
  let features' := fold_left attachment_step attachments features in
  (max_attachment_size features <= max_attachment_size features')%Z /\
  (forall a, In a attachments ->
     (default 0%Z (att_size a) <= max_attachment_size features')%Z) /\
  (max_attachment_size features' = max_attachment_size features \/
   exists a, In a attachments /\
             default 0%Z (att_size a) = max_attachment_size features').
Proof.
  revert features.
  induction attachments as [|a attachments IH]; intros f; cbv zeta.
  - simpl. split; [lia|]. split; [intros a []|now left].
  - simpl fold_left.
    destruct (IH (attachment_step f a)) as (Hge & Hall & Hwho).
    unfold attachment_step in Hge at 1. simpl in Hge.
    split; [lia|]. split.
    + intros b [<-|Hb]; [lia|now apply Hall].
    + destruct Hwho as [Heq|(b & Hb & Heq)].
      * rewrite Heq. unfold attachment_step. simpl.
        destruct (Z.max_spec (max_attachment_size f)
                    (default 0%Z (att_size a))) as [[_ ->]|[_ ->]].
        -- right. exists a. split; [now left|reflexivity].
        -- now left.
      * right. exists b. split; [now right|assumption].
Qed.

Lemma attachment_fold_encrypted (attachments : list Attachment)
    (features : attachment_features) :
  has_encrypted_attachment (fold_left attachment_step attachments features)
  = has_encrypted_attachment features
    || existsb (fun a =>
                  existsb (fun x =>
                             contains x (str_lower (default [] (att_name a))))
                          encrypted_markers)
               attachments.
Proof.
  revert features.
  induction attachments as [|a attachments IH]; intros f.
  - simpl. now rewrite orb_false_r.
  - simpl fold_left. rewrite IH. unfold attachment_step at 1.
    cbn [has_encrypted_attachment existsb].
    destruct (existsb
                (fun x => contains x (str_lower (default [] (att_name a))))
                encrypted_markers),
      (has_encrypted_attachment f); reflexivity.
Qed.

End Attachments.

(** X1 — the attachment counters are nested: the executable count is at
    most the suspicious count, which is at most the number of
    attachments, and none is negative. *)
Theorem attachment_counts_nested `{PyEnv} (attachments : list Attachment) :
  exists n s x : Z,
    _extract_attachment_features attachments !! "attachment_count"
      = Some (VInt n) /\
    _extract_attachment_features attachments !! "suspicious_attachment_count"
      = Some (VInt s) /\
    _extract_attachment_features attachments !! "executable_attachment_count"
      = Some (VInt x) /\
    n = len attachments /\ (0 <= x <= s)%Z /\ (s <= n)%Z.
Proof.
  destruct (attachment_features_lookup attachments)
    as (Hn & Hs & Hx & _ & _).
  eexists _, _, _. repeat (split; [eassumption|]).
  split; [reflexivity|].
  apply (attachment_fold_counts attachments _ 0%Z); simpl; lia.
Qed.

(** X2 — max_attachment_size is the largest declared size, 0 when there
    is no attachment or no positive size: it is not negative, no
    attachment declares more, and it is 0 or the size of an attachment
    (a missing size counting as 0). *)
Theorem attachment_max_size_is_maximum `{PyEnv}
    (attachments : list Attachment) :
  exists m : Z,
    _extract_attachment_features attachments !! "max_attachment_size"
      = Some (VInt m) /\
    (0 <= m)%Z /\
    (forall a, In a attachments -> (default 0%Z (att_size a) <= m)%Z) /\
    (m = 0%Z \/
     exists a, In a attachments /\ default 0%Z (att_size a) = m).
Proof.
  destruct (attachment_features_lookup attachments)
    as (_ & _ & _ & Hm & _).
  eexists. split; [eassumption|].
  destruct (attachment_fold_max attachments
              {| suspicious_attachment_count := 0;
                 executable_attachment_count := 0;
                 max_attachment_size := 0;
                 has_encrypted_attachment := false |})
    as (Hge & Hall & Hwho).
  split; [exact Hge|]. split; [exact Hall|exact Hwho].
Qed.

(** X3 — has_encrypted_attachment is True exactly when the lower-cased
    name of some attachment (the empty name for a missing one) contains
    one of ".enc", ".encrypted", ".pgp", ".gpg". *)
Theorem attachment_encrypted_flag `{PyEnv} (attachments : list Attachment) :
  _extract_attachment_features attachments !! "has_encrypted_attachment"
  = Some (VBool
            (existsb
               (fun a =>
                  existsb
                    (fun x => contains x (str_lower (default [] (att_name a))))
                    encrypted_markers)
               attachments)).
Proof.
  destruct (attachment_features_lookup attachments)
    as (_ & _ & _ & _ & He).
  rewrite He, attachment_fold_encrypted. reflexivity.
Qed.

Lemma contains_dot (name : pystr) :
  contains [dot] name = true <-> In dot name.
Proof.
  induction name as [|c name IH].
  - simpl. split; [discriminate|tauto].
  - cbn [contains startswith In].
    destruct (N.eqb_spec dot c) as [->|Hne]; simpl.
    + split; [now left|reflexivity].
    + rewrite IH. split; [now right|]. intros [Heq|Hin]; congruence.
Qed.

Lemma last_segment_no_dot `{PyEnv} (seg name : pystr) :
  ~ In dot name -> last_segment seg name = seg ++ name.
Proof.
  revert seg. induction name as [|c name IH]; intros seg Hno; simpl.
  - now rewrite app_nil_r.
  - destruct (N.eqb_spec c dot) as [->|_].
    + exfalso. apply Hno. now left.
    + rewrite IH, <- app_assoc; [reflexivity|].
      intros Hin. apply Hno. now right.
Qed.

Lemma last_segment_after_dot `{PyEnv} (seg stem rest : pystr) :
  last_segment seg (stem ++ dot :: rest) = last_segment [] rest.
Proof.
  revert seg. induction stem as [|c stem IH]; intros seg; simpl.
  - rewrite ?N.eqb_refl. reflexivity.
  - destruct (c =? dot)%N; apply IH.
Qed.

(** X4 — only what follows the last dot of a file name is its extension,
    lower-cased; a name without a dot has the empty extension.  So
    "invoice.pdf.EXE" has the extension ".exe" and "setup.exe.txt" the
    extension ".txt". *)
Theorem extension_is_last_segment `{PyEnv} :
  (forall name : pystr, ~ In dot name -> extension name = []) /\
  (forall stem ext : pystr,
      ~ In dot ext ->
      extension (stem ++ dot :: ext) = dot :: str_lower ext).
Proof.
  split.
  - intros name Hno. unfold extension.
    destruct (contains [dot] name) eqn:Hc; [|reflexivity].
    apply contains_dot in Hc. contradiction.
  - intros stem ext Hno. unfold extension.
    replace (contains [dot] (stem ++ dot :: ext)) with true.
    + now rewrite last_segment_after_dot, last_segment_no_dot.
    + symmetry. apply contains_dot, in_or_app. right. now left.
Qed.

Lemma extension_is_last_segment_witness :
  extension (H := AsciiEnv.env) (str "README") = [] /\
  extension (H := AsciiEnv.env) (str "invoice.pdf.EXE") = str ".exe".
Proof.
  destruct (extension_is_last_segment (H := AsciiEnv.env)) as [Hnone Hlast].
  split.
  - apply Hnone. intros Hin. repeat (destruct Hin as [Hin|Hin]; [discriminate Hin|]).
    destruct Hin.
  - apply (Hlast (str "invoice.pdf") (str "EXE")).
    intros Hin. repeat (destruct Hin as [Hin|Hin]; [discriminate Hin|]).
    destruct Hin.
Defined.

(** ** Behavioural features *)

Lemma str_count_pos (s p : pystr) :
  (0 <? str_count s p)%nat = contains p s.
Proof.
  destruct p as [|c p].
  - simpl. destruct s; reflexivity.
  - unfold str_count.
    induction s as [|a s IH]; [reflexivity|].
    simpl count_from. cbn [contains startswith].
    destruct ((c =? a)%N && startswith p s); [reflexivity|].
    rewrite IH. reflexivity.
Qed.

Lemma count_words_fold_pos (text_lower : pystr) (words : list pystr)
    (count : Z) :
  (0 <= count)%Z ->
  (fold_left
     (fun count word => (count + Z.of_nat (str_count text_lower word))%Z)
     words count >? 0)%Z
  = (count >? 0)%Z || existsb (fun word => contains word text_lower) words.
Proof.
  revert count. induction words as [|w words IH]; intros count Hc; simpl.
  - now rewrite orb_false_r.
  - rewrite IH by lia. rewrite <- str_count_pos.
    destruct (Nat.ltb_spec 0 (str_count text_lower w));
      destruct (Z.gtb_spec (count + Z.of_nat (str_count text_lower w)) 0);
      destruct (Z.gtb_spec count 0); simpl; try reflexivity; lia.
Qed.

Lemma count_words_pos (text_lower : pystr) (words : list pystr) :
  (count_words text_lower words >? 0)%Z
  = existsb (fun word => contains word text_lower) words.
Proof. unfold count_words. now rewrite count_words_fold_pos by lia. Qed.

(** X5 — each behavioural flag is True exactly when some term of its
    lexicon occurs in the lower-cased text: has_urgency for the urgency
    terms, has_financial for the financial terms and
    has_personal_info_request for the personal-information terms. *)
Theorem behavioral_flags_are_substring_tests `{PyEnv}
    (self : FeatureExtractor) (text : pystr) :
  let occurs := fun word => contains word (str_lower text) in
  _extract_behavioral_features self text !! "has_urgency"
    = Some (VBool (existsb occurs (urgency_words self))) /\
  _extract_behavioral_features self text !! "has_financial"
    = Some (VBool (existsb occurs (financial_words self))) /\
  _extract_behavioral_features self text !! "has_personal_info_request"
    = Some (VBool (existsb occurs (personal_info_words self))).
Proof.
  cbv zeta. rewrite <- !count_words_pos. repeat split; reflexivity.
Qed.

(** ** Bounds of the entropy *)

Lemma log2_nonneg (x : R) : 1 <= x -> 0 <= log2 x.
Proof.
  intros Hx. unfold log2. pose proof ln2_pos.
  apply Rmult_le_pos; [|left; now apply Rinv_0_lt_compat].
  destruct Hx as [Hx|<-]; [|rewrite ln_1; lra].
  left. rewrite <- ln_1. apply ln_increasing; lra.
Qed.

Lemma log2_le (x y : R) : 0 < x -> x <= y -> log2 x <= log2 y.
Proof.
  intros Hx Hxy. unfold log2. pose proof ln2_pos.
  apply Rmult_le_compat_r; [left; now apply Rinv_0_lt_compat|].
  destruct Hxy as [Hlt|<-]; [left; now apply ln_increasing|lra].
Qed.

Lemma log2_div (x y : R) : 0 < x -> 0 < y -> log2 (x / y) = log2 x - log2 y.
Proof.
  intros Hx Hy. unfold log2. change (x / y) with (x * / y).
  rewrite ln_mult, ln_Rinv by (try apply Rinv_0_lt_compat; assumption).
  pose proof ln2_pos. field. lra.
Qed.

Lemma Rsum_le {A} (f g : A -> R) (l : list A) :
  (forall x, In x l -> f x <= g x) ->
  Rsum (List.map f l) <= Rsum (List.map g l).
Proof.
  intros Hfg. induction l as [|x l IH]; simpl; [lra|].
  assert (f x <= g x) by (apply Hfg; now left).
  assert (Rsum (List.map f l) <= Rsum (List.map g l)).
  { apply IH. intros y Hy. apply Hfg. now right. }
  lra.
Qed.

Lemma Rsum_scale {A} (f : A -> R) (k : R) (l : list A) :
  Rsum (List.map (fun x => f x * k) l) = Rsum (List.map f l) * k.
Proof. induction l as [|x l IH]; simpl; [lra|rewrite IH; lra]. Qed.

Lemma Rsum_zero {A} (l : list A) : Rsum (List.map (fun _ => 0) l) = 0.
Proof. induction l as [|x l IH]; simpl; [reflexivity|rewrite IH; lra]. Qed.

Lemma Rsum_opp {A} (f : A -> R) (l : list A) :
  - Rsum (List.map f l) = Rsum (List.map (fun x => - f x) l).
Proof. induction l as [|x l IH]; simpl; [lra|rewrite <- IH; lra]. Qed.

Lemma Rsum_INR {A} (f : A -> nat) (l : list A) :
  Rsum (List.map (fun x => INR (f x)) l) = INR (list_sum (List.map f l)).
Proof.
  induction l as [|x l IH]; simpl; [reflexivity|].
  now rewrite plus_INR, IH.
Qed.

(** Distinct characters are counted in disjoint parts of the string. *)
Lemma indicator_sum_le (a : N) (l : list N) :
  List.NoDup l ->
  (list_sum (List.map (fun c => if N.eq_dec a c then 1 else 0) l) <= 1)%nat.
Proof.
  induction 1 as [|c l Hnotin Hnd IH]; simpl; [lia|].
  destruct (N.eq_dec a c) as [->|Hne]; [|lia].
  assert (list_sum (List.map (fun c' => if N.eq_dec c c' then 1 else 0) l)
          = 0)%nat as ->; [|lia].
  clear IH Hnd. induction l as [|c' l IH]; simpl; [reflexivity|].
  destruct (N.eq_dec c c') as [->|_].
  - exfalso. apply Hnotin. now left.
  - apply IH. intros Hin. apply Hnotin. now right.
Qed.

Lemma count_sum_le (s : pystr) (l : list N) :
  List.NoDup l ->
  (list_sum (List.map (count_occ N.eq_dec s) l) <= length s)%nat.
Proof.
  intros Hnd. induction s as [|a s IH]; simpl.
  - clear Hnd. induction l; simpl; lia.
  - assert (list_sum
              (List.map (fun c => if N.eq_dec a c
                                  then S (count_occ N.eq_dec s c)
                                  else count_occ N.eq_dec s c) l)
            = list_sum (List.map (fun c => if N.eq_dec a c then 1 else 0) l)
              + list_sum (List.map (count_occ N.eq_dec s) l))%nat as ->.
    { clear. induction l as [|c l IHl]; simpl; [reflexivity|].
      rewrite IHl. destruct (N.eq_dec a c); lia. }
    pose proof (indicator_sum_le a l Hnd). lia.
Qed.

Lemma NoDup_narrow_chars (s : pystr) : List.NoDup (narrow_chars s).
Proof. apply List.NoDup_filter, List.NoDup_nodup. Qed.

Lemma narrow_chars_count (s : pystr) (c : N) :
  In c (narrow_chars s) -> (1 <= count_occ N.eq_dec s c)%nat.
Proof.
  unfold narrow_chars. rewrite filter_In, nodup_In.
  intros [Hin _]. now apply (count_occ_In N.eq_dec) in Hin.
Qed.

Lemma calculate_entropy_bounds_aux (s : pystr) :
  s <> [] ->
  0 <= _calculate_entropy s <= log2 (INR (length s)).
Proof.
  intros Hs.
  assert (1 <= length s)%nat as Hlen by (destruct s; simpl; [congruence|lia]).
  assert (1 <= INR (length s)) as Hn by (apply (le_INR 1); exact Hlen).
  pose proof (log2_nonneg _ Hn) as HL.
  rewrite entropy_narrow.
  set (L := log2 (INR (length s))) in *.
  assert (forall c, In c (narrow_chars s) ->
            0 <= - (prob s c * log2 (prob s c)) <= prob s c * L) as Hterm.
  { intros c Hc. apply narrow_chars_count in Hc.
    assert (1 <= INR (count_occ N.eq_dec s c)) as Hk by (apply (le_INR 1); exact Hc).
    assert (INR (count_occ N.eq_dec s c) <= INR (length s)) as Hkn
      by (apply le_INR, count_occ_bound).
    pose proof (log2_nonneg _ Hk) as Hlk.
    assert (log2 (INR (count_occ N.eq_dec s c)) <= L) as HlkL
      by (apply log2_le; lra).
    unfold prob. rewrite log2_div by lra. fold L.
    set (k := INR (count_occ N.eq_dec s c)) in *.
    set (n := INR (length s)) in *.
    assert (0 < k / n) as Hp by (apply Rdiv_lt_0_compat; lra).
    split; nra. }
  rewrite Rsum_opp.
  split.
  - rewrite <- (Rsum_zero (narrow_chars s)).
    apply Rsum_le. intros c Hc. apply Hterm, Hc.
  - transitivity (Rsum (List.map (fun c => prob s c * L) (narrow_chars s))).
    + apply Rsum_le. intros c Hc. apply Hterm, Hc.
    + rewrite Rsum_scale.
      assert (Rsum (List.map (prob s) (narrow_chars s)) <= 1) as Hsum.
      { unfold prob.
        rewrite (Rsum_scale (fun c => INR (count_occ N.eq_dec s c))
                   (/ INR (length s))).
        rewrite Rsum_INR.
        pose proof (count_sum_le s _ (NoDup_narrow_chars s)) as Hc.
        apply le_INR in Hc.
        apply Rmult_le_reg_r with (INR (length s)); [lra|].
        rewrite Rmult_assoc, Rinv_l by lra. lra. }
      assert (0 <= Rsum (List.map (prob s) (narrow_chars s))) as Hpos.
      { rewrite <- (Rsum_zero (narrow_chars s)).
        apply Rsum_le. intros c Hc. apply narrow_chars_count in Hc.
        left. apply prob_pos. lia. }
      nra.
Qed.

Lemma log2_22 : log2 22 < 4.5.
Proof.
  unfold log2. pose proof ln2_pos as H2.
  apply Rmult_lt_reg_r with (ln 2); [assumption|].
  unfold Rdiv. rewrite Rmult_assoc, Rinv_l by lra.
  assert (ln (22 ^ 2) < ln (2 ^ 9)) as Hlt by (apply ln_increasing; lra).
  rewrite !ln_pow in Hlt by lra. simpl INR in Hlt. lra.
Qed.

Lemma short_entropy (s : pystr) :
  (length s <= 22)%nat -> _calculate_entropy s < 4.5.
Proof.
  intros Hlen. destruct s as [|c s]; [simpl; lra|].
  pose proof (calculate_entropy_bounds_aux (c :: s) ltac:(discriminate)) as Hb.
  assert (INR (length (c :: s)) <= 22) as Hn.
  { replace 22 with (INR 22) by (simpl; lra). now apply le_INR. }
  assert (0 < INR (length (c :: s))) as Hpos by (apply lt_0_INR; simpl; lia).
  pose proof (log2_le _ _ Hpos Hn). pose proof log2_22. lra.
Qed.

(** X6 — the entropy is never negative, for a non-empty string it is at
    most the binary logarithm of the length, and a string of at most 22
    characters stays below the threshold 4.5 of the URL check. *)
Theorem calculate_entropy_bounds (s : pystr) :
  (0 <= _calculate_entropy s) /\
  (s <> [] -> _calculate_entropy s <= log2 (INR (length s))) /\
  ((length s <= 22)%nat -> _calculate_entropy s < 4.5).
Proof.
  split; [|split].
  - destruct s as [|c s]; [simpl; lra|].
    apply (calculate_entropy_bounds_aux (c :: s)). discriminate.
  - intros Hs. now apply calculate_entropy_bounds_aux.
  - apply short_entropy.
Qed.

Lemma calculate_entropy_bounds_witness :
  (_calculate_entropy (str "http://a.b") <= log2 (INR 10)) /\
  (_calculate_entropy (str "http://a.b") < 4.5).
Proof.
  destruct (calculate_entropy_bounds (str "http://a.b")) as (_ & Hup & Hshort).
  split; [apply Hup; discriminate|apply Hshort; simpl; lia].
Defined.

(** ** Bounds of the URL features *)

Lemma short_url_entropy (url : pystr) :
  (length url <= 22)%nat -> is_high_entropy url = false.
Proof.
  intros Hlen. unfold is_high_entropy. pose proof (short_entropy url Hlen).
  destruct (Rgt_dec (_calculate_entropy url) 4.5); [lra|reflexivity].
Qed.

Section UrlBounds.
Context `{PyEnv} (self : FeatureExtractor).

Lemma url_fold_bounds (urls : list pystr) (f : url_features) (n : Z) :
  (0 <= ip_url_count f <= n)%Z /\
  (0 <= shortened_url_count f <= n)%Z /\
  (0 <= suspicious_tld_count f <= n)%Z /\
  (0 <= suspicious_url_count f <= 4 * n)%Z /\
  len (has_https f) = n ->
  let f' := fold_left (url_step self) urls f in
  let n' := (n + len urls)%Z in
  (0 <= ip_url_count f' <= n')%Z /\
  (0 <= shortened_url_count f' <= n')%Z /\
  (0 <= suspicious_tld_count f' <= n')%Z /\
  (0 <= suspicious_url_count f' <= 4 * n')%Z /\
  len (has_https f') = n'.
Proof.
  revert f n. induction urls as [|url urls IH]; intros f n Hf; cbv zeta.
  - cbn [fold_left].
    replace (n + len (@nil pystr))%Z with n by (unfold len; simpl; lia).
    exact Hf.
  - simpl fold_left.
    replace (n + len (url :: urls))%Z with ((n + 1) + len urls)%Z
      by (unfold len; simpl length; lia).
    apply IH. destruct Hf as (Hip & Hsh & Htld & Hsus & Hlen).
    unfold url_step.
    destruct (is_ip_url url), (is_shortened url),
      (has_suspicious_tld self url), (is_high_entropy url);
      cbn [ip_url_count shortened_url_count suspicious_tld_count
           suspicious_url_count has_https];
      unfold len in *; rewrite length_app; simpl length;
      repeat split; lia.
Qed.

End UrlBounds.

(** X7 — every URL counter lies between 0 and the number of URLs, and
    suspicious_url_count between 0 and four times that number. *)
Theorem url_counters_bounded `{PyEnv} (self : FeatureExtractor)
    (urls : list pystr) :
  exists (features : dict) (n ip shortened tld suspicious : Z),
    _extract_url_features self urls = Ok features /\
    features !! "url_count" = Some (VInt n) /\
    features !! "ip_url_count" = Some (VInt ip) /\
    features !! "shortened_url_count" = Some (VInt shortened) /\
    features !! "suspicious_tld_count" = Some (VInt tld) /\
    features !! "suspicious_url_count" = Some (VInt suspicious) /\
    n = len urls /\
    (0 <= ip <= n)%Z /\ (0 <= shortened <= n)%Z /\ (0 <= tld <= n)%Z /\
    (0 <= suspicious <= 4 * n)%Z.
Proof.
  destruct (url_features_lookup self urls)
    as (features & Hok & Hn & Hsus & Hip & Hsh & Htld).
  exists features. eexists _, _, _, _, _.
  repeat (split; [eassumption|]). split; [reflexivity|].
  destruct (url_fold_bounds self urls
              {| suspicious_url_count := 0; ip_url_count := 0;
                 shortened_url_count := 0; suspicious_tld_count := 0;
                 url_entropy := []; has_https := [] |} 0%Z)
    as (Bip & Bsh & Btld & Bsus & _).
  { unfold len. simpl. lia. }
  rewrite !Z.add_0_l in *.
  repeat split; first [apply Bip | apply Bsh | apply Btld | apply Bsus].
Qed.

Lemma count_high_entropy_short (urls : list pystr) :
  List.Forall (fun url => (length url <= 22)%nat) urls ->
  count_if is_high_entropy urls = 0%Z.
Proof.
  induction 1 as [|url urls Hurl _ IH]; [reflexivity|].
  rewrite count_if_cons, IH, (short_url_entropy url Hurl). reflexivity.
Qed.

(** X8 — URLs of at most 22 characters are never counted for their
    entropy: for a list of such URLs suspicious_url_count is just the sum
    of ip_url_count, shortened_url_count and suspicious_tld_count. *)
Theorem short_urls_not_high_entropy `{PyEnv} (self : FeatureExtractor)
    (urls : list pystr) :
  List.Forall (fun url => (length url <= 22)%nat) urls ->
  exists (features : dict) (ip shortened tld : Z),
    _extract_url_features self urls = Ok features /\
    features !! "ip_url_count" = Some (VInt ip) /\
    features !! "shortened_url_count" = Some (VInt shortened) /\
    features !! "suspicious_tld_count" = Some (VInt tld) /\
    features !! "suspicious_url_count" = Some (VInt (ip + shortened + tld)%Z).
Proof.
  intros Hshort.
  destruct (url_features_lookup self urls)
    as (features & Hok & _ & Hsus & Hip & Hsh & Htld).
  exists features. eexists _, _, _.
  repeat (split; [eassumption|]).
  rewrite Hsus. do 2 f_equal.
  pose proof (url_loop_inv self urls) as Hinv. unfold url_inv in Hinv.
  rewrite Hinv.
  rewrite (count_high_entropy_short urls Hshort). lia.
Qed.

Lemma short_urls_not_high_entropy_witness :
  exists (features : dict) (ip shortened tld : Z),
    _extract_url_features (H := AsciiEnv.env) __init__
      [str "http://bit.ly/x"; str "https://a.example"] = Ok features /\
    features !! "ip_url_count" = Some (VInt ip) /\
    features !! "shortened_url_count" = Some (VInt shortened) /\
    features !! "suspicious_tld_count" = Some (VInt tld) /\
    features !! "suspicious_url_count" = Some (VInt (ip + shortened + tld)%Z).
Proof.
  apply (short_urls_not_high_entropy (H := AsciiEnv.env)).
  repeat constructor; simpl; lia.
Defined.

Lemma truediv_unit (a b : Z) :
  (0 <= a <= b)%Z -> (0 < b)%Z ->
  exists v, truediv a b = Ok v /\ in_unit v.
Proof.
  intros Hab Hb.
  destruct (guarded_ratio_unit a b Hab) as (v & Hv & Hunit & _).
  unfold guarded_ratio in Hv.
  destruct (Z.gtb_spec b 0); [|lia]. eauto.
Qed.

(** X9 — the URL features are always returned, with exactly seven keys
    (the per-URL lists url_entropy and has_https are removed), and
    https_ratio is a number between 0 and 1, 0 for no URL. *)
Theorem url_features_shape `{PyEnv} (self : FeatureExtractor)
    (urls : list pystr) :
  exists (features : dict) (https_ratio : pyval),
    _extract_url_features self urls = Ok features /\
    dom features
      = list_to_set ["url_count"; "suspicious_url_count"; "ip_url_count";
                     "shortened_url_count"; "suspicious_tld_count";
                     "avg_url_entropy"; "https_ratio"] /\
    features !! "url_entropy" = None /\
    features !! "has_https" = None /\
    features !! "https_ratio" = Some https_ratio /\
    in_unit https_ratio /\
    (urls = [] -> https_ratio = VInt 0).
Proof.
  unfold _extract_url_features.
  assert (exists v,
             match has_https (url_loop self urls) with
             | [] => Ok (VInt 0)
             | _ => truediv
                      (count_if (fun b : bool => b)
                         (has_https (url_loop self urls)))
                      (len (has_https (url_loop self urls)))
             end = Ok v /\ in_unit v /\ (urls = [] -> v = VInt 0))
    as (v & Hv & Hunit & Hnil).
  { destruct (has_https (url_loop self urls)) as [|b l] eqn:Hl.
    - exists (VInt 0). repeat split; simpl; lia.
    - destruct (truediv_unit (count_if (fun b : bool => b) (b :: l))
                  (len (b :: l))) as (v & Hv & Hunit).
      + apply count_if_le.
      + unfold len. simpl. lia.
      + exists v. repeat split; try assumption.
        intros ->. discriminate Hl. }
  rewrite Hv. cbn [mbind result_bind].
  eexists _, v. split; [reflexivity|].
  repeat split; try assumption; reflexivity.
Qed.

(** ** Reply-To and From *)

(** X10 — has_reply_to is True exactly when the headers hold a non-empty
    Reply-To; reply_to_mismatch is True exactly when, in addition, that
    value differs from the From header, a missing From counting as
    different.  So reply_to_mismatch is never True without has_reply_to. *)
Theorem reply_to_features `{PyEnv} (e : EmailData) :
  let h := headers_of e in
  let present :=
    match h !! str "Reply-To" with Some (_ :: _) => true | _ => false end in
  _extract_metadata_features e !! "has_reply_to" = Some (VBool present) /\
  _extract_metadata_features e !! "reply_to_mismatch"
    = Some (VBool (present
                   && bool_decide (h !! str "Reply-To" ≠ h !! str "From"))).
Proof.
  unfold headers_of, _extract_metadata_features. cbv zeta.
  destruct (default ∅ (ed_headers e) !! str "Reply-To") as [[|c r]|];
    try destruct (bool_decide _); split; reflexivity.
Qed.

(** ** Errors and unused keys of [prepare_ml_input] *)

Lemma append_numerical_list (features : dict) (names : list string)
    (feature_vector : list R) (name : string) (l : list pyval) :
  In name names -> features !! name = Some (VList l) ->
  exists e : exn,
    append_numerical features names feature_vector = Raise e /\
    (e = TypeError \/ e = OverflowError) /\
    (in_range_at features names -> e = TypeError).
Proof.
  revert feature_vector.
  induction names as [|n names IH]; intros acc Hin Hl; [destruct Hin|].
  cbn [append_numerical].
  destruct (features !! n) as [[z|r|b|l']|] eqn:Hn;
    cbn [default from_option Datatypes.id py_float mbind result_bind].
  - destruct (in_float_range z) eqn:Hz; cbn [mbind result_bind].
    + destruct Hin as [->|Hin]; [congruence|].
      destruct (IH (acc ++ [IZR z]) Hin Hl) as (e & He & Hkind & Htype).
      exists e. repeat split; try assumption.
      intros Hrange. apply Htype. intros m y Hm. apply Hrange. now right.
    + exists OverflowError. split; [reflexivity|]. split; [now right|].
      intros Hrange. rewrite (Hrange n z) in Hz; [discriminate|now left|exact Hn].
  - destruct Hin as [->|Hin]; [congruence|].
    destruct (IH (acc ++ [r]) Hin Hl) as (e & He & Hkind & Htype).
    exists e. repeat split; try assumption.
    intros Hrange. apply Htype. intros m y Hm. apply Hrange. now right.
  - destruct Hin as [->|Hin]; [congruence|].
    destruct (IH (acc ++ [if b then 1 else 0]) Hin Hl)
      as (e & He & Hkind & Htype).
    exists e. repeat split; try assumption.
    intros Hrange. apply Htype. intros m y Hm. apply Hrange. now right.
  - exists TypeError. split; [reflexivity|]. split; [now left|reflexivity].
  - destruct Hin as [->|Hin]; [congruence|].
    change (in_float_range 0) with true. cbn [mbind result_bind].
    destruct (IH (acc ++ [IZR 0]) Hin Hl) as (e & He & Hkind & Htype).
    exists e. repeat split; try assumption.
    intros Hrange. apply Htype. intros m y Hm. apply Hrange. now right.
Qed.

(** X11 — a list under the name of a numerical feature is refused: the
    conversion to float raises and no vector is built.  The exception is
    TypeError, unless a numerical feature read before the list is an
    integer beyond float range, which raises OverflowError first. *)
Theorem prepare_ml_input_rejects_lists (features : dict) (name : string)
    (l : list pyval) :
  In name numerical_features ->
  features !! name = Some (VList l) ->
  exists e : exn,
    prepare_ml_input features = Raise e /\
    (e = TypeError \/ e = OverflowError) /\
    (in_range_at features numerical_features -> e = TypeError).
Proof.
  intros Hin Hl. unfold prepare_ml_input.
  destruct (append_numerical_list features numerical_features [] name l
              Hin Hl) as (e & He & Hkind & Htype).
  exists e. rewrite He. repeat split; assumption.
Qed.

Lemma prepare_ml_input_rejects_lists_witness :
  prepare_ml_input {[ "url_count" := VList [VInt 1] ]} = Raise TypeError.
Proof.
  destruct (prepare_ml_input_rejects_lists
              {[ "url_count" := VList [VInt 1] ]} "url_count" [VInt 1])
    as (e & He & _ & Htype).
  - unfold numerical_features. simpl. tauto.
  - reflexivity.
  - rewrite He. f_equal. apply Htype.
    intros name z Hin.
    repeat (destruct Hin as [<-|Hin];
            [intros Hv; vm_compute in Hv; discriminate Hv|]).
    destruct Hin.
Defined.

Lemma append_numerical_insert (features : dict) (names : list string)
    (feature_vector : list R) (key : string) (v : pyval) :
  ~ In key names ->
  append_numerical (<[key := v]> features) names feature_vector
  = append_numerical features names feature_vector.
Proof.
  revert feature_vector.
  induction names as [|n names IH]; intros acc Hnot; [reflexivity|].
  simpl. rewrite lookup_insert_ne by (intros ->; apply Hnot; now left).
  destruct (py_float _); simpl; [|reflexivity].
  apply IH. intros Hin. apply Hnot. now right.
Qed.

Lemma append_boolean_insert (features : dict) (names : list string)
    (feature_vector : list R) (key : string) (v : pyval) :
  ~ In key names ->
  append_boolean (<[key := v]> features) names feature_vector
  = append_boolean features names feature_vector.
Proof.
  revert feature_vector.
  induction names as [|n names IH]; intros acc Hnot; [reflexivity|].
  simpl. rewrite lookup_insert_ne by (intros ->; apply Hnot; now left).
  apply IH. intros Hin. apply Hnot. now right.
Qed.

(** X12 — the vector depends on the 32 named features only: binding any
    other key (tfidf_vector, readability_score, max_attachment_size,
    has_dmarc_fail, ...) to any value does not change the result. *)
Theorem prepare_ml_input_ignores_other_keys (features : dict)
    (key : string) (v : pyval) :
  ~ In key (numerical_features ++ boolean_features) ->
  prepare_ml_input (<[key := v]> features) = prepare_ml_input features.
Proof.
  intros Hnot. unfold prepare_ml_input.
  rewrite append_numerical_insert
    by (intros Hin; apply Hnot, in_or_app; now left).
  destruct (append_numerical features numerical_features []);
    unfold mbind, result_bind; [|reflexivity].
  now rewrite append_boolean_insert
    by (intros Hin; apply Hnot, in_or_app; now right).
Qed.

Lemma prepare_ml_input_ignores_other_keys_witness :
  prepare_ml_input (<["tfidf_vector" := VList [VFloat 1]]> default_features)
  = prepare_ml_input default_features.
Proof.
  apply prepare_ml_input_ignores_other_keys.
  intros Hin. repeat (destruct Hin as [Hin|Hin]; [discriminate Hin|]).
  destruct Hin.
Defined.

(** ** The feature set as a whole *)

Lemma no_lists_empty : no_lists ∅.
Proof. intros key l. rewrite lookup_empty. discriminate. Qed.

Lemma no_lists_insert (d : dict) (key : string) (v : pyval) :
  is_scalar v -> no_lists d -> no_lists (<[key := v]> d).
Proof.
  intros Hv Hd k l. rewrite lookup_insert. case_decide.
  - intros [= ->]. exact Hv.
  - apply Hd.
Qed.

Lemma no_lists_union (d1 d2 : dict) :
  no_lists d1 -> no_lists d2 -> no_lists (d1 ∪ d2).
Proof.
  intros H1 H2 k l Hl. apply lookup_union_Some_raw in Hl as [Hl|[_ Hl]].
  - exact (H1 k l Hl).
  - exact (H2 k l Hl).
Qed.

Lemma no_lists_list_to_map (entries : list (string * pyval)) :
  List.Forall (fun kv => is_scalar (snd kv)) entries ->
  no_lists (list_to_map entries).
Proof.
  induction 1 as [|[k v] entries Hv _ IH].
  - apply no_lists_empty.
  - rewrite list_to_map_cons. now apply no_lists_insert.
Qed.

Lemma guarded_ratio_ok (a b : Z) :
  exists v, guarded_ratio a b = Ok v /\ is_scalar v.
Proof.
  unfold guarded_ratio, truediv.
  destruct (Z.gtb_spec b 0); [|exists (VInt 0); now split].
  destruct (Z.eqb_spec b 0); [lia|]. eexists. now split.
Qed.

Ltac scalar_entries :=
  apply no_lists_list_to_map; repeat constructor; simpl; trivial.

Section FeatureSet.
Context `{PyEnv}.

Lemma text_features_ok (text : pystr) :
  exists d : dict,
    _extract_text_features text = Ok d /\ no_lists d /\
    dom d = list_to_set
              ["word_count"; "char_count"; "sentence_count";
               "avg_word_length"; "unique_word_ratio"; "uppercase_ratio";
               "punctuation_count"; "readability_score"].
Proof.
  unfold _extract_text_features. destruct text as [|c text].
  - eexists. split; [reflexivity|]. split; [scalar_entries|reflexivity].
  - set (txt := c :: text). set (words := word_tokenize (str_lower txt)).
    destruct (guarded_ratio_ok (len txt) (len words)) as (v1 & -> & Hv1).
    destruct (guarded_ratio_ok
                (Z.of_nat (size (list_to_set words : gset pystr))) (len words))
      as (v2 & -> & Hv2).
    destruct (guarded_ratio_ok (count_if chr_isupper txt) (len txt))
      as (v3 & -> & Hv3).
    cbn [mbind result_bind].
    eexists. split; [reflexivity|]. split; [scalar_entries|reflexivity].
Qed.

Lemma url_features_ok (self : FeatureExtractor) (urls : list pystr) :
  exists d : dict,
    _extract_url_features self urls = Ok d /\ no_lists d /\
    dom d = list_to_set
              ["url_count"; "suspicious_url_count"; "ip_url_count";
               "shortened_url_count"; "suspicious_tld_count";
               "avg_url_entropy"; "https_ratio"].
Proof.
  unfold _extract_url_features.
  assert (exists v,
             match has_https (url_loop self urls) with
             | [] => Ok (VInt 0)
             | _ => truediv
                      (count_if (fun b : bool => b)
                         (has_https (url_loop self urls)))
                      (len (has_https (url_loop self urls)))
             end = Ok v /\ is_scalar v) as (v & -> & Hv).
  { destruct (https_ratio_ok (has_https (url_loop self urls))) as [v Hv].
    exists v. split; [exact Hv|].
    destruct (has_https (url_loop self urls)); [now inversion Hv|].
    unfold truediv in Hv. destruct (_ =? _)%Z; now inversion Hv. }
  cbn [mbind result_bind].
  eexists. split; [reflexivity|]. split; [|reflexivity].
  intros key l.
  destruct (decide (key = "has_https")) as [->|Hk1];
    [rewrite lookup_delete_eq; discriminate|].
  rewrite lookup_delete_ne by congruence.
  destruct (decide (key = "url_entropy")) as [->|Hk2];
    [rewrite lookup_delete_eq; discriminate|].
  rewrite lookup_delete_ne by congruence.
  unfold list_to_map. cbn [foldr fst snd].
  repeat (rewrite lookup_insert; case_decide;
          [try congruence;
           try (intros [= Hl]; first [discriminate Hl | now subst v]);
           destruct (url_entropy (url_loop self urls)); discriminate|]).
  rewrite lookup_empty. discriminate.
Qed.

Lemma metadata_features_shape (e : EmailData) :
  no_lists (_extract_metadata_features e) /\
  dom (_extract_metadata_features e)
  = list_to_set
      ["has_reply_to"; "reply_to_mismatch"; "has_spf_fail"; "has_dkim_fail";
       "has_dmarc_fail"; "has_html"; "has_forms"; "has_scripts";
       "has_iframes"].
Proof.
  unfold _extract_metadata_features. cbv zeta.
  destruct (default ∅ (ed_headers e) !! str "Reply-To") as [[|c r]|];
    try destruct (bool_decide _);
    (split; [repeat (apply no_lists_insert; [exact I|]);
             first [apply no_lists_empty | scalar_entries]
            |reflexivity]).
Qed.

Lemma attachment_features_shape (attachments : list Attachment) :
  no_lists (_extract_attachment_features attachments) /\
  dom (_extract_attachment_features attachments)
  = list_to_set
      ["attachment_count"; "suspicious_attachment_count";
       "executable_attachment_count"; "max_attachment_size";
       "has_encrypted_attachment"].
Proof. split; [scalar_entries|reflexivity]. Qed.

Lemma behavioral_features_shape (self : FeatureExtractor) (text : pystr) :
  no_lists (_extract_behavioral_features self text) /\
  dom (_extract_behavioral_features self text)
  = list_to_set
      ["urgency_words_count"; "financial_words_count";
       "personal_info_words_count"; "has_urgency"; "has_financial";
       "has_personal_info_request"].
Proof. split; [scalar_entries|reflexivity]. Qed.

End FeatureSet.

(** ** Counts within float range *)

Lemma len_nonneg {A} (l : list A) : (0 <= len l)%Z.
Proof. unfold len. lia. Qed.

Lemma small_in_range (z n : Z) :
  (0 <= z <= 4 * n)%Z -> (n <= sys_maxsize)%Z -> convertible (VInt z).
Proof.
  unfold convertible, in_float_range, float_int_bound, sys_maxsize.
  intros Hz Hn. apply Z.ltb_lt. lia.
Qed.

Lemma product_in_range (z a b : Z) :
  (0 <= z <= a * (b + 1))%Z ->
  (0 <= a <= sys_maxsize)%Z -> (0 <= b <= sys_maxsize)%Z ->
  convertible (VInt z).
Proof.
  intros Hz Ha Hb.
  assert (a * (b + 1) <= sys_maxsize * (sys_maxsize + 1))%Z as Hprod
    by (apply Z.mul_le_mono_nonneg; lia).
  unfold convertible, in_float_range, float_int_bound, sys_maxsize in *.
  apply Z.ltb_lt. lia.
Qed.

Lemma count_from_le (skip : nat) (p s : pystr) :
  (count_from skip p s <= length s)%nat.
Proof.
  revert skip. induction s as [|c s IH]; intros skip; [simpl; lia|].
  cbn [count_from length]. destruct skip as [|skip].
  - destruct (startswith p (c :: s)).
    + specialize (IH (Nat.pred (length p))). lia.
    + specialize (IH 0%nat). lia.
  - specialize (IH skip). lia.
Qed.

Lemma str_count_le (s p : pystr) : (str_count s p <= S (length s))%nat.
Proof.
  destruct p as [|c p]; [simpl; lia|].
  unfold str_count. pose proof (count_from_le 0 (c :: p) s). lia.
Qed.

Lemma count_words_fold_bounds (text_lower : pystr) (words : list pystr)
    (count : Z) :
  (0 <= count)%Z ->
  (0 <= fold_left
          (fun count word =>
             (count + Z.of_nat (str_count text_lower word))%Z)
          words count
     <= count + len words * (len text_lower + 1))%Z.
Proof.
  revert count. induction words as [|w words IH]; intros count Hc.
  - unfold len. simpl. lia.
  - cbn [fold_left].
    pose proof (str_count_le text_lower w) as Hw.
    specialize (IH (count + Z.of_nat (str_count text_lower w))%Z
                  ltac:(lia)).
    unfold len in *. cbn [length]. nia.
Qed.

Lemma count_words_bounds (text_lower : pystr) (words : list pystr) :
  (0 <= count_words text_lower words
     <= len words * (len text_lower + 1))%Z.
Proof.
  unfold count_words.
  pose proof (count_words_fold_bounds text_lower words 0%Z ltac:(lia)). lia.
Qed.

Lemma Ok_inj {A} (a b : A) : Ok a = Ok b -> a = b.
Proof. congruence. Qed.

Lemma convertible_at_empty (names : list string) : convertible_at ∅ names.
Proof. intros name v _. rewrite lookup_empty. discriminate. Qed.

Lemma convertible_at_insert (d : dict) (names : list string)
    (key : string) (v : pyval) :
  (In key names -> convertible v) -> convertible_at d names ->
  convertible_at (<[key := v]> d) names.
Proof.
  intros Hv Hd name w Hin. rewrite lookup_insert. case_decide.
  - intros [= <-]. subst. now apply Hv.
  - now apply Hd.
Qed.

Lemma convertible_at_union (d1 d2 : dict) (names : list string) :
  convertible_at d1 names -> convertible_at d2 names ->
  convertible_at (d1 ∪ d2) names.
Proof.
  intros H1 H2 name v Hin Hv.
  apply lookup_union_Some_raw in Hv as [Hv|[_ Hv]].
  - exact (H1 name v Hin Hv).
  - exact (H2 name v Hin Hv).
Qed.

Lemma convertible_at_list_to_map (entries : list (string * pyval))
    (names : list string) :
  List.Forall (fun kv => In (fst kv) names -> convertible (snd kv)) entries ->
  convertible_at (list_to_map entries) names.
Proof.
  induction 1 as [|[key v] entries Hv _ IH].
  - apply convertible_at_empty.
  - rewrite list_to_map_cons. now apply convertible_at_insert.
Qed.

Lemma guarded_ratio_convertible (a b : Z) :
  exists v, guarded_ratio a b = Ok v /\ convertible v.
Proof.
  unfold guarded_ratio, truediv.
  destruct (Z.gtb_spec b 0); [|exists (VInt 0); now split].
  destruct (Z.eqb_spec b 0); [lia|]. eexists. now split.
Qed.

(** A name that is not a numerical feature. *)
Ltac not_numerical :=
  let Hin := fresh "Hin" in
  intros Hin; exfalso;
  repeat (destruct Hin as [Hin|Hin]; [discriminate Hin|]);
  destruct Hin.

Section Convertible.
Context `{PyEnv}.

Lemma text_features_convertible (text : pystr) (d : dict) :
  _extract_text_features text = Ok d ->
  (len text <= sys_maxsize)%Z ->
  (len (word_tokenize (str_lower text)) <= sys_maxsize)%Z ->
  (len (sent_tokenize text) <= sys_maxsize)%Z ->
  convertible_at d numerical_features.
Proof.
  unfold _extract_text_features. destruct text as [|c text].
  - intros Hd _ _ _. apply Ok_inj in Hd. subst d.
    apply convertible_at_list_to_map.
    repeat (constructor; [intros _; reflexivity|]). constructor.
  - set (txt := c :: text). set (words := word_tokenize (str_lower txt)).
    destruct (guarded_ratio_convertible (len txt) (len words))
      as (v1 & -> & Hv1).
    destruct (guarded_ratio_convertible
                (Z.of_nat (size (list_to_set words : gset pystr))) (len words))
      as (v2 & -> & Hv2).
    destruct (guarded_ratio_convertible (count_if chr_isupper txt) (len txt))
      as (v3 & -> & Hv3).
    cbn [mbind result_bind]. intros Hd Htxt Hwords Hsent.
    apply Ok_inj in Hd. subst d.
    pose proof (len_nonneg txt). pose proof (len_nonneg words).
    pose proof (len_nonneg (sent_tokenize txt)).
    pose proof (count_if_le
                  (fun c => existsb (N.eqb c) punctuation) txt).
    apply convertible_at_list_to_map.
    repeat (constructor;
            [intros _; cbn [snd];
             first [ exact I
                   | assumption
                   | (apply (small_in_range _ (len words)); lia)
                   | (apply (small_in_range _ (len txt)); lia)
                   | (apply (small_in_range _ (len (sent_tokenize txt)));
                      lia) ]|]).
    constructor.
Qed.

Lemma url_features_convertible (self : FeatureExtractor)
    (urls : list pystr) (d : dict) :
  _extract_url_features self urls = Ok d ->
  (len urls <= sys_maxsize)%Z ->
  convertible_at d numerical_features.
Proof.
  unfold _extract_url_features. intros Hd Hsize.
  destruct (url_fold_bounds self urls
              {| suspicious_url_count := 0; ip_url_count := 0;
                 shortened_url_count := 0; suspicious_tld_count := 0;
                 url_entropy := []; has_https := [] |} 0%Z)
    as (Bip & Bsh & Btld & Bsus & _).
  { unfold len. simpl. lia. }
  rewrite !Z.add_0_l in *. fold (url_loop self urls) in *.
  pose proof (len_nonneg urls).
  assert (exists v,
             match has_https (url_loop self urls) with
             | [] => Ok (VInt 0)
             | _ => truediv
                      (count_if (fun b : bool => b)
                         (has_https (url_loop self urls)))
                      (len (has_https (url_loop self urls)))
             end = Ok v /\ convertible v) as (v & Hv & Hconv).
  { destruct (https_ratio_ok (has_https (url_loop self urls))) as [v Hv].
    exists v. split; [exact Hv|].
    destruct (has_https (url_loop self urls)); [now inversion Hv|].
    unfold truediv in Hv. destruct (_ =? _)%Z; now inversion Hv. }
  rewrite Hv in Hd. cbn [mbind result_bind] in Hd.
  apply Ok_inj in Hd. subst d.
  intros key w Hin.
  destruct (decide (key = "has_https")) as [->|Hk1];
    [rewrite lookup_delete_eq; discriminate|].
  rewrite lookup_delete_ne by congruence.
  destruct (decide (key = "url_entropy")) as [->|Hk2];
    [rewrite lookup_delete_eq; discriminate|].
  rewrite lookup_delete_ne by congruence.
  unfold list_to_map. cbn [foldr fst snd].
  repeat (rewrite lookup_insert; case_decide;
          [intros [= <-];
           first [ exact Hconv
                 | congruence
                 | apply (small_in_range _ (len urls)); lia
                 | (destruct (url_entropy (url_loop self urls));
                    [reflexivity|exact I]) ]|]).
  rewrite lookup_empty. discriminate.
Qed.

Lemma metadata_features_convertible (e : EmailData) :
  convertible_at (_extract_metadata_features e) numerical_features.
Proof.
  unfold _extract_metadata_features. cbv zeta.
  destruct (default ∅ (ed_headers e) !! str "Reply-To") as [[|c r]|];
    try destruct (bool_decide _);
    repeat (apply convertible_at_insert; [intros _; exact I|]);
    apply convertible_at_empty.
Qed.

Lemma attachment_features_convertible (attachments : list Attachment) :
  (len attachments <= sys_maxsize)%Z ->
  convertible_at (_extract_attachment_features attachments)
                 numerical_features.
Proof.
  intros Hsize. unfold _extract_attachment_features.
  destruct (attachment_fold_counts attachments
              {| suspicious_attachment_count := 0;
                 executable_attachment_count := 0;
                 max_attachment_size := 0;
                 has_encrypted_attachment := false |} 0%Z)
    as (Hx & Hs); [simpl; lia|simpl; lia|].
  rewrite Z.add_0_l in Hs. pose proof (len_nonneg attachments).
  apply convertible_at_list_to_map.
  repeat (constructor;
          [cbn [fst snd];
           first [ (intros _; exact I)
                 | (intros _; apply (small_in_range _ (len attachments));
                    lia)
                 | not_numerical ]|]).
  constructor.
Qed.

Lemma behavioral_features_convertible (self : FeatureExtractor)
    (text : pystr) :
  (len (str_lower text) <= sys_maxsize)%Z ->
  (len (urgency_words self) <= sys_maxsize)%Z ->
  (len (financial_words self) <= sys_maxsize)%Z ->
  (len (personal_info_words self) <= sys_maxsize)%Z ->
  convertible_at (_extract_behavioral_features self text)
                 numerical_features.
Proof.
  intros Htext Hu Hf Hp. unfold _extract_behavioral_features.
  pose proof (len_nonneg (str_lower text)).
  pose proof (len_nonneg (urgency_words self)).
  pose proof (len_nonneg (financial_words self)).
  pose proof (len_nonneg (personal_info_words self)).
  apply convertible_at_list_to_map.
  repeat (constructor;
          [intros _; cbn [snd];
           first [ exact I
                 | (eapply product_in_range;
                    [apply count_words_bounds|lia|lia]) ]|]).
  constructor.
Qed.

End Convertible.

Section WholeSet.
Context `{PyEnv}.

(** A returned feature set is the TF-IDF vector on top of the five
    dictionaries. *)
Lemma extract_all_features_inv (e : EmailData)
    (self self' : FeatureExtractor) (features : dict) :
  extract_all_features e self = (Ok features, self') ->
  exists (text_f url_f : dict) (v : list pyval),
    _extract_text_features (default [] (ed_body e)) = Ok text_f /\
    _extract_url_features self (default [] (ed_urls e)) = Ok url_f /\
    _get_tfidf_features (default [] (ed_body e)) self = (Ok v, self') /\
    features
    = <["tfidf_vector" := VList v]>
        (_extract_behavioral_features self (default [] (ed_body e))
         ∪ (_extract_attachment_features (default [] (ed_attachments e))
            ∪ (_extract_metadata_features e ∪ (url_f ∪ (text_f ∪ ∅))))).
Proof.
  unfold extract_all_features, M_bind, M_pure, M_ret, update.
  destruct (_extract_text_features _) as [text_f|]; [|discriminate].
  destruct (_extract_url_features _ _) as [url_f|]; [|discriminate].
  destruct (_get_tfidf_features _ self) as [[v|] self1] eqn:Htfidf;
    [|discriminate].
  intros [= <- <-]. exists text_f, url_f, v. repeat split; reflexivity.
Qed.

(** X13 — a feature set that [extract_all_features] returns for an
    email of Python size (no string or list longer than sys.maxsize, as
    for every Python object) is always accepted by [prepare_ml_input]:
    the result is one row of 32 entries. *)
Theorem extracted_features_vectorize (e : EmailData)
    (self self' : FeatureExtractor) (features : dict) :
  python_sized self e ->
  extract_all_features e self = (Ok features, self') ->
  exists row : list R,
    prepare_ml_input features = Ok [row] /\ length row = 32%nat.
Proof.
  intros (Hbody & Hlower & Hwords & Hsent & Hurls & Hatt & Hu & Hf & Hp)
    Hcall.
  destruct (extract_all_features_inv _ _ _ _ Hcall)
    as (text_f & url_f & v & Htext & Hurl & _ & ->).
  unfold prepare_ml_input.
  rewrite append_numerical_spec.
  - unfold mbind, result_bind. rewrite append_boolean_spec.
    eexists. split; [reflexivity|].
    rewrite !length_app, !length_map. reflexivity.
  - apply convertible_at_insert; [not_numerical|].
    apply convertible_at_union;
      [now apply behavioral_features_convertible|].
    apply convertible_at_union;
      [now apply attachment_features_convertible|].
    apply convertible_at_union; [apply metadata_features_convertible|].
    apply convertible_at_union;
      [now apply (url_features_convertible _ _ _ Hurl)|].
    apply convertible_at_union;
      [now apply (text_features_convertible _ _ Htext)
      |apply convertible_at_empty].
Qed.

(** X14 — a feature set that [extract_all_features] returns has exactly
    the 36 declared keys, whatever the email: no key is missing and none
    is added. *)
Theorem extracted_features_keys (e : EmailData)
    (self self' : FeatureExtractor) (features : dict) :
  extract_all_features e self = (Ok features, self') ->
  dom features = list_to_set declared_keys.
Proof.
  intros Hcall.
  destruct (extract_all_features_inv _ _ _ _ Hcall)
    as (text_f & url_f & v & Htext & Hurl & _ & ->).
  destruct (text_features_ok (default [] (ed_body e)))
    as (d1 & Hd1 & _ & Hdom1).
  destruct (url_features_ok self (default [] (ed_urls e)))
    as (d2 & Hd2 & _ & Hdom2).
  rewrite Htext in Hd1. rewrite Hurl in Hd2.
  injection Hd1 as <-. injection Hd2 as <-.
  rewrite dom_insert_L, !dom_union_L, dom_empty_L, Hdom1, Hdom2.
  rewrite (proj2 (behavioral_features_shape _ _)),
    (proj2 (attachment_features_shape _)),
    (proj2 (metadata_features_shape _)).
  reflexivity.
Qed.

(** X15 — [extract_all_features] returns a feature set when the body is
    empty or has a token for the vectorizer; for any other body (no word
    of two characters, stop words only) it raises ValueError.  The
    extractor then keeps its lexicons and the vocabulary it held, and the
    idf weights of an earlier fit are gone. *)
Theorem extract_all_features_outcome (e : EmailData)
    (self : FeatureExtractor) :
  let body := default [] (ed_body e) in
  (body = [] \/ sk_tokens body <> [] ->
   exists (features : dict) (self' : FeatureExtractor),
     extract_all_features e self = (Ok features, self')) /\
  (body <> [] -> sk_tokens body = [] ->
   extract_all_features e self
   = (Raise ValueError,
      set_vectorizer self
        {| Sklearn.max_features :=
             Sklearn.max_features (tfidf_vectorizer self);
           Sklearn.vocabulary_ :=
             Sklearn.vocabulary_ (tfidf_vectorizer self);
           Sklearn.idf_ := None |})).
Proof.
  cbv zeta.
  destruct (text_features_ok (default [] (ed_body e))) as (d1 & Hd1 & _).
  destruct (url_features_ok self (default [] (ed_urls e))) as (d2 & Hd2 & _).
  split.
  - intros Hbody.
    assert (exists v self',
               _get_tfidf_features (default [] (ed_body e)) self
               = (Ok v, self')) as (v & self' & Hv).
    { destruct (default [] (ed_body e)) as [|c body] eqn:Hb.
      - eexists _, _. reflexivity.
      - destruct Hbody as [Hnil|Htok]; [discriminate|].
        destruct (get_tfidf_features_fits self (c :: body))
          as (row & idfs & Hcall & _); [discriminate|assumption|].
        eexists _, _. exact Hcall. }
    unfold extract_all_features, M_bind, M_pure, M_ret.
    rewrite Hd1, Hd2, Hv. eexists _, _. reflexivity.
  - intros Hbody Htok.
    unfold extract_all_features, M_bind, M_pure, M_ret.
    rewrite Hd1, Hd2, (get_tfidf_features_raises self _ Hbody Htok).
    reflexivity.
Qed.

End WholeSet.

Lemma extract_all_features_outcome_witness :
  let fitted :=
    snd (_get_tfidf_features (H := AsciiEnv.env) (str "hello world") __init__) in
  let outcome :=
    extract_all_features (H := AsciiEnv.env)
      {| ed_body := Some (str "!!!"); ed_urls := None; ed_headers := None;
         ed_attachments := None; ed_has_html := None; ed_has_forms := None;
         ed_has_scripts := None; ed_has_iframes := None |} fitted in
  (exists (features : dict) (self' : FeatureExtractor),
      extract_all_features (H := AsciiEnv.env)
        (with_headers no_email ∅) fitted = (Ok features, self')) /\
  fst outcome = Raise ValueError /\
  Sklearn.vocabulary_ (tfidf_vectorizer (snd outcome))
    = Some [str "hello"; str "hello world"; str "world"] /\
  Sklearn.idf_ (tfidf_vectorizer (snd outcome)) = None.
Proof.
  cbv zeta. split.
  - apply (extract_all_features_outcome (H := AsciiEnv.env)). now left.
  - rewrite (proj2 (extract_all_features_outcome (H := AsciiEnv.env) _ _));
      [|discriminate|reflexivity].
    repeat split; reflexivity.
Defined.

(** ** The text embedding across calls *)

Lemma NoDup_fst_combine {A} (l1 : list nat) (l2 : list A) :
  List.NoDup l1 -> List.NoDup (List.map fst (combine l1 l2)).
Proof.
  intros Hnd. revert l2.
  induction Hnd as [|a l1 Hnotin Hnd IH]; intros l2; [constructor|].
  destruct l2 as [|b l2]; [constructor|]. simpl. constructor; [|apply IH].
  intros Hin. apply in_map_iff in Hin as ([a' b'] & Heq & Hin).
  simpl in Heq. subst a'. apply in_combine_l in Hin. contradiction.
Qed.

Lemma NoDup_fst_filter {A} (f : nat * A -> bool) (l : list (nat * A)) :
  List.NoDup (List.map fst l) ->
  List.NoDup (List.map fst (List.filter f l)).
Proof.
  induction l as [|a l IH]; intros Hnd; [constructor|].
  simpl in Hnd. apply List.NoDup_cons_iff in Hnd as [Hnotin Hnd].
  simpl. destruct (f a); [|now apply IH].
  simpl. constructor; [|now apply IH].
  intros Hin. apply Hnotin.
  apply in_map_iff in Hin as (x & Heq & Hin).
  apply filter_In in Hin as [Hin _].
  apply in_map_iff. now exists x.
Qed.

(** The cap of [max_features]: the indices kept are distinct and among
    the first [k] of the argsort, whatever its order. *)
Lemma length_limit_features_cap `{PyEnv} (k : nat)
    (docs : list (list pystr)) (vocab : list pystr) :
  (length (Sklearn.limit_features k docs vocab) <= k)%nat.
Proof.
  unfold Sklearn.limit_features.
  destruct (Nat.leb_spec (length vocab) k) as [Hle|_]; [exact Hle|].
  cbv zeta. set (mask_inds := firstn k _).
  rewrite length_map.
  transitivity (length mask_inds); [|apply firstn_le_length].
  rewrite <- (length_map fst).
  apply List.NoDup_incl_length.
  - apply NoDup_fst_filter, NoDup_fst_combine, seq_NoDup.
  - intros i Hi. apply in_map_iff in Hi as ([i' t] & Heq & Hin).
    simpl in Heq. subst i'.
    apply filter_In in Hin as [_ Hin]. simpl in Hin.
    apply existsb_exists in Hin as (j & Hj & Heq).
    apply Nat.eqb_eq in Heq. now subst.
Qed.

Section EmbeddingCalls.
Context `{PyEnv}.

Lemma length_fitted_vocabulary_cap (k : nat) (text : pystr) :
  (length (fitted_vocabulary k text) <= k)%nat.
Proof. unfold fitted_vocabulary. apply length_limit_features_cap. Qed.

(** X16 — the embedding of a text does not depend on what the extractor
    scored before: two extractors with the same max_features return the
    same result for the same text, and after a successful fit they hold
    the same vectorizer. *)
Theorem get_tfidf_features_forgets (self1 self2 : FeatureExtractor)
    (text : pystr) :
  Sklearn.max_features (tfidf_vectorizer self1)
    = Sklearn.max_features (tfidf_vectorizer self2) ->
  fst (_get_tfidf_features text self1) = fst (_get_tfidf_features text self2) /\
  (text <> [] -> sk_tokens text <> [] ->
   tfidf_vectorizer (snd (_get_tfidf_features text self1))
   = tfidf_vectorizer (snd (_get_tfidf_features text self2))).
Proof.
  intros Hmax. split.
  - unfold _get_tfidf_features, Sklearn.fit_transform.
    destruct text as [|c text]; [reflexivity|].
    rewrite Hmax.
    destruct (Sklearn.sort_by _ _); reflexivity.
  - intros Htext Htok.
    destruct (get_tfidf_features_fits self1 text Htext Htok)
      as (row1 & idfs1 & Hcall1 & _).
    destruct (get_tfidf_features_fits self2 text Htext Htok)
      as (row2 & idfs2 & Hcall2 & _).
    unfold _get_tfidf_features, Sklearn.fit_transform in *.
    destruct text as [|c text]; [congruence|].
    rewrite Hmax in *.
    destruct (Sklearn.sort_by _ _); [discriminate Hcall1|]. reflexivity.
Qed.

(** X17 — a returned vector for a non-empty text has at most
    max_features entries and at most three entries per token of the
    text; it has 1000 entries only for the empty text. *)
Theorem tfidf_vector_length_capped (self self' : FeatureExtractor)
    (text : pystr) (v : list pyval) :
  _get_tfidf_features text self = (Ok v, self') ->
  (text = [] -> length v = 1000%nat) /\
  (text <> [] ->
   (length v <= Sklearn.max_features (tfidf_vectorizer self))%nat /\
   (length v <= 3 * length (sk_tokens text))%nat).
Proof.
  intros Hcall. split.
  - intros ->. unfold _get_tfidf_features in Hcall.
    assert (v = repeat (VInt 0) 1000) as -> by congruence.
    apply repeat_length.
  - intros Htext.
    destruct (sk_tokens text) as [|t ts] eqn:Htok.
    + rewrite (get_tfidf_features_raises self text Htext Htok) in Hcall.
      discriminate.
    + assert (sk_tokens text <> []) as Hne by (rewrite Htok; discriminate).
      destruct (get_tfidf_features_fits self text Htext Hne)
        as (row & idfs & Hfit & Hlen).
      rewrite Hfit in Hcall. injection Hcall as <- _.
      rewrite length_map, Hlen, <- Htok. split.
      * apply length_fitted_vocabulary_cap.
      * apply length_fitted_vocabulary.
Qed.

End EmbeddingCalls.

Lemma get_tfidf_features_forgets_witness :
  fst (_get_tfidf_features (H := AsciiEnv.env) (str "verify account") __init__)
  = fst (_get_tfidf_features (H := AsciiEnv.env) (str "verify account")
           (snd (_get_tfidf_features (H := AsciiEnv.env)
                   (str "hello world") __init__))).
Proof.
  apply (get_tfidf_features_forgets (H := AsciiEnv.env)). reflexivity.
Defined.

Lemma entropy_shannon_narrow_witness :
  _calculate_entropy (str "http://a.b/c") = shannon_entropy (str "http://a.b/c").
Proof.
  apply entropy_shannon_narrow. repeat constructor.
Defined.

(** ** Runs of the further properties *)

Lemma attachment_max_size_is_maximum_witness :
  exists m : Z,
    _extract_attachment_features (H := AsciiEnv.env)
      [ {| att_name := Some (str "a.pdf"); att_size := Some 120%Z |};
        {| att_name := Some (str "b.exe"); att_size := None |} ]
      !! "max_attachment_size" = Some (VInt m) /\
    (0 <= m)%Z /\
    (forall a,
        In a [ {| att_name := Some (str "a.pdf"); att_size := Some 120%Z |};
               {| att_name := Some (str "b.exe"); att_size := None |} ] ->
        (default 0%Z (att_size a) <= m)%Z) /\
    (m = 0%Z \/
     exists a,
       In a [ {| att_name := Some (str "a.pdf"); att_size := Some 120%Z |};
              {| att_name := Some (str "b.exe"); att_size := None |} ] /\
       default 0%Z (att_size a) = m).
Proof.
  exact (attachment_max_size_is_maximum (H := AsciiEnv.env)
           [ {| att_name := Some (str "a.pdf"); att_size := Some 120%Z |};
             {| att_name := Some (str "b.exe"); att_size := None |} ]).
Defined.

Lemma url_features_shape_witness :
  exists (features : dict) (https_ratio : pyval),
    _extract_url_features (H := AsciiEnv.env) __init__ [] = Ok features /\
    dom features
      = list_to_set ["url_count"; "suspicious_url_count"; "ip_url_count";
                     "shortened_url_count"; "suspicious_tld_count";
                     "avg_url_entropy"; "https_ratio"] /\
    features !! "url_entropy" = None /\
    features !! "has_https" = None /\
    features !! "https_ratio" = Some https_ratio /\
    in_unit https_ratio /\
    (@nil pystr = [] -> https_ratio = VInt 0).
Proof.
  exact (url_features_shape (H := AsciiEnv.env) __init__ []).
Defined.

Lemma extracted_features_vectorize_witness :
  exists row : list R,
    prepare_ml_input default_features = Ok [row] /\ length row = 32%nat.
Proof.
  apply (extracted_features_vectorize (H := AsciiEnv.env)
           no_email __init__ __init__ default_features).
  - unfold python_sized. cbv zeta. repeat split; vm_compute; discriminate.
  - reflexivity.
Defined.

Lemma extracted_features_keys_witness :
  dom default_features = list_to_set declared_keys.
Proof.
  apply (extracted_features_keys (H := AsciiEnv.env)
           no_email __init__ __init__ default_features).
  reflexivity.
Defined.

Lemma tfidf_vector_length_capped_witness :
  match _get_tfidf_features (H := AsciiEnv.env) (str "hello world") __init__
  with
  | (Ok v, _) => (length v <= 1000)%nat /\ (length v <= 3 * 2)%nat
  | (Raise _, _) => False
  end.
Proof.
  destruct (_get_tfidf_features (H := AsciiEnv.env) (str "hello world")
              __init__) as [[v|err] self'] eqn:Hcall.
  - apply (tfidf_vector_length_capped (H := AsciiEnv.env) _ _ _ _ Hcall).
    discriminate.
  - destruct (get_tfidf_features_fits (H := AsciiEnv.env) __init__
                (str "hello world")) as (row & idfs & Hfit & _);
      [discriminate|discriminate|].
    rewrite Hfit in Hcall. discriminate Hcall.
Defined.
